(** * Variant ingestion, numbering and export of the scoreset router

    A shallow embedding of [app/routers/scoresets.py] and proofs about
    the null normaliser, the urn counter, the table loader, the upload
    transaction and sequences of uploads, the scoreset update, the read
    endpoints and the CSV exporter; with them the keyword methods of
    [mavedb/models/experiment.py] and the post-processing of two
    statistics of [mavedb/routers/statistics.py]. *)

From Stdlib Require Import ZArith List String Ascii Bool Lia.
From Stdlib Require Import DecimalString DecimalZ.
From stdpp Require Import base option list gmap strings.

Local Open Scope string_scope.

(** ** Python strings

    A [str] is modelled as a Rocq [string]; a character stands for the
    code point with the same number, so the model covers the code points
    below 256. *)
Module PyStr.

Definition in_range (lo hi n : N) : bool := ((lo <=? n) && (n <=? hi))%N.

(** [str.isspace] on one character; the regular expression class [\s]
    of a text pattern uses the same test. *)
Definition isspace (c : ascii) : bool :=
  let n := N_of_ascii c in
  in_range 9 13 n || in_range 28 32 n || (n =? 133)%N || (n =? 160)%N.

Definition has_lowercase (c : ascii) : bool :=
  let n := N_of_ascii c in
  in_range 65 90 n || (in_range 192 222 n && negb (n =? 215)%N).

Definition tolower (c : ascii) : ascii :=
  if has_lowercase c then ascii_of_N (N_of_ascii c + 32) else c.

Fixpoint lower (s : string) : string :=
  match s with
  | EmptyString => EmptyString
  | String c r => String (tolower c) (lower r)
  end.

Fixpoint lstrip (s : string) : string :=
  match s with
  | EmptyString => EmptyString
  | String c r => if isspace c then lstrip r else s
  end.

Fixpoint rstrip (s : string) : string :=
  match s with
  | EmptyString => EmptyString
  | String c r =>
      match rstrip r with
      | EmptyString => if isspace c then EmptyString else String c EmptyString
      | r' => String c r'
      end
  end.

(** [str.strip()] with no argument. *)
Definition strip (s : string) : string := rstrip (lstrip s).

Fixpoint all_space (s : string) : bool :=
  match s with
  | EmptyString => true
  | String c r => isspace c && all_space r
  end.

(** Truth value of a [str]: the empty string is falsy. *)
Definition truthy (s : string) : bool :=
  match s with EmptyString => false | _ => true end.

End PyStr.

(** ** Regular expressions

    The fragment of [re] that the router uses, matched with Brzozowski
    derivatives. [fullmatch] returns a match object or [None]; only its
    truth value is observed, so it is a [bool] here. *)
Module Re.

Inductive regex : Type :=
| Void
| Eps
| Chr (c : ascii)
| Space
| Any
| Cat (r1 r2 : regex)
| Alt (r1 r2 : regex)
| Star (r : regex).

(** [r+] *)
Definition Plus (r : regex) : regex := Cat r (Star r).

(** A literal word. *)
Fixpoint lit (w : string) : regex :=
  match w with
  | EmptyString => Eps
  | String c w' => Cat (Chr c) (lit w')
  end.

(** One pattern character against one input character; [ic] is the
    IGNORECASE flag. *)
Definition chr_match (ic : bool) (c a : ascii) : bool :=
  if ic then Ascii.eqb (PyStr.tolower a) (PyStr.tolower c) else Ascii.eqb a c.

Fixpoint nullable (r : regex) : bool :=
  match r with
  | Void => false
  | Eps => true
  | Chr _ => false
  | Space => false
  | Any => false
  | Cat r1 r2 => nullable r1 && nullable r2
  | Alt r1 r2 => nullable r1 || nullable r2
  | Star _ => true
  end.

Fixpoint deriv (ic : bool) (a : ascii) (r : regex) : regex :=
  match r with
  | Void => Void
  | Eps => Void
  | Chr c => if chr_match ic c a then Eps else Void
  | Space => if PyStr.isspace a then Eps else Void
  | Any => Eps
  | Cat r1 r2 =>
      if nullable r1
      then Alt (Cat (deriv ic a r1) r2) (deriv ic a r2)
      else Cat (deriv ic a r1) r2
  | Alt r1 r2 => Alt (deriv ic a r1) (deriv ic a r2)
  | Star r1 => Cat (deriv ic a r1) (Star r1)
  end.

Fixpoint fullmatch (ic : bool) (r : regex) (s : string) : bool :=
  match s with
  | EmptyString => nullable r
  | String a s' => fullmatch ic (deriv ic a r) s'
  end.

(** [search]: some substring matches. *)
Definition search (ic : bool) (r : regex) (s : string) : bool :=
  fullmatch ic (Cat (Star Any) (Cat r (Star Any))) s.


End Re.

(** ** The null normaliser *)

Import Re.

(** [null_values_re], compiled with [re.IGNORECASE]. *)
Definition null_values_re : regex :=
  Alt (Plus Space)
 (Alt (lit "none")
 (Alt (lit "nan")
 (Alt (lit "na")
 (Alt (lit "undefined")
 (Alt (lit "n/a")
 (Alt (lit "null")
      (lit "nil"))))))).

(** [is_null(value)] for a [str] argument ([str(value)] is then the
    identity). The result of [fullmatch(..) or not value] is given by its
    truth value. *)
Definition is_null (value : string) : bool :=
  let value := PyStr.lower (PyStr.strip value) in
  fullmatch true null_values_re value || negb (PyStr.truthy value).


(** ** The null normaliser on code points

    The same function with a [str] as the list of its code points.
    [str.lower] and the case-insensitive comparison of [re] are driven by
    the tables of the Unicode database; the model has them for the code
    points below 256 and for U+0131, the dotless i, and [is_null] is
    [None] on a value that holds another code point. [str.isspace] is
    given in full. *)
Module CodePoints.


(** [str.isspace] on one code point; the class [\s] of a text pattern
    uses the same test. *)
Definition isspace (c : N) : bool :=
  PyStr.in_range 9 13 c || PyStr.in_range 28 32 c || (c =? 133)%N || (c =? 160)%N ||
  (c =? 5760)%N || PyStr.in_range 8192 8202 c || (c =? 8232)%N || (c =? 8233)%N ||
  (c =? 8239)%N || (c =? 8287)%N || (c =? 12288)%N.

(** The lower-case mapping of one code point, where the model has it. *)
Definition tolower (c : N) : option N :=
  if (c <? 256)%N then Some (N_of_ascii (PyStr.tolower (ascii_of_N c)))
  else if (c =? 305)%N then Some 305%N
  else None.

Definition lower (s : list N) : option (list N) := mapM tolower s.

Fixpoint lstrip (s : list N) : list N :=
  match s with
  | [] => []
  | c :: r => if isspace c then lstrip r else s
  end.

Fixpoint rstrip (s : list N) : list N :=
  match s with
  | [] => []
  | c :: r =>
      match rstrip r with
      | [] => if isspace c then [] else [c]
      | r' => c :: r'
      end
  end.

Definition strip (s : list N) : list N := rstrip (lstrip s).

(** One pattern character against one input code point. Under
    IGNORECASE the compiled pattern compares the lower-cased input with
    the lower-cased pattern character, and a pattern letter i also takes
    the dotless i, U+0131: the pair is among the case fixes of
    [sre_compile]. *)
Definition chr_match (ic : bool) (c : ascii) (a : N) : bool :=
  if ic
  then match tolower a with
       | Some a' =>
           let c' := N_of_ascii (PyStr.tolower c) in
           (a' =? c')%N || ((c' =? 105)%N && (a' =? 305)%N)
       | None => false
       end
  else (a =? N_of_ascii c)%N.

Fixpoint deriv (ic : bool) (a : N) (r : regex) : regex :=
  match r with
  | Void => Void
  | Eps => Void
  | Chr c => if chr_match ic c a then Eps else Void
  | Space => if isspace a then Eps else Void
  | Any => Eps
  | Cat r1 r2 =>
      if nullable r1
      then Alt (Cat (deriv ic a r1) r2) (deriv ic a r2)
      else Cat (deriv ic a r1) r2
  | Alt r1 r2 => Alt (deriv ic a r1) (deriv ic a r2)
  | Star r1 => Cat (deriv ic a r1) (Star r1)
  end.

Fixpoint fullmatch (ic : bool) (r : regex) (s : list N) : bool :=
  match s with
  | [] => nullable r
  | a :: s' => fullmatch ic (deriv ic a r) s'
  end.

Definition truthy (s : list N) : bool :=
  match s with [] => false | _ => true end.

(** [is_null(value)] for a [str] argument given by its code points. *)
Definition is_null (value : list N) : option bool :=
  value ← lower (strip value);
  Some (fullmatch true null_values_re value || negb (truthy value)).

End CodePoints.

(** ** Errors

    A Python call either returns or raises; [result] carries the
    exception class. [EmptyDataError], [ParserError] and
    [UnicodeDecodeError] are the classes the csv reader raises; in Python
    each of them is a subclass of [ValueError]. *)
Inductive exn : Type :=
| AttributeError
| KeyError
| ValueError
| EmptyDataError
| ParserError
| UnicodeDecodeError
| MultipleResultsFound
| MergeError
| DatabaseError.

Inductive result (A : Type) : Type :=
| Ok (a : A)
| Raise (e : exn).
Arguments Ok {A} a.
Arguments Raise {A} e.

Definition rbind {A B} (r : result A) (k : A -> result B) : result B :=
  match r with Ok a => k a | Raise e => Raise e end.

(** A loop body run over a list, stopping at the first exception. *)
Fixpoint rmap {A B} (f : A -> result B) (l : list A) : result (list B) :=
  match l with
  | [] => Ok []
  | x :: l' =>
      rbind (f x) (fun y => rbind (rmap f l') (fun ys => Ok (y :: ys)))
  end.

(** ** Data model *)

Definition User : Type := Z.

Record DatasetColumns : Type := {
  count_columns : list string;
  score_columns : list string
}.

(** Modelled from the spec: the mapped class [Scoreset] is in
    [app/models/scoreset.py], which is not among the sources. These are
    the attributes the router reads or assigns; the view model
    [SavedScoreset] declares [num_variants] an integer and
    [dataset_columns] a dictionary. *)
Record Scoreset : Type := {
  id : Z;
  urn : string;
  private : bool;
  num_variants : Z;
  dataset_columns : DatasetColumns;
  modified_by : option User
}.

Definition set_num_variants (n : Z) (s : Scoreset) : Scoreset :=
  {| id := id s; urn := urn s; private := private s; num_variants := n;
     dataset_columns := dataset_columns s; modified_by := modified_by s |}.

Definition set_dataset_columns (d : DatasetColumns) (s : Scoreset) : Scoreset :=
  {| id := id s; urn := urn s; private := private s;
     num_variants := num_variants s;
     dataset_columns := d; modified_by := modified_by s |}.

Definition set_modified_by (u : User) (s : Scoreset) : Scoreset :=
  {| id := id s; urn := urn s; private := private s;
     num_variants := num_variants s;
     dataset_columns := dataset_columns s; modified_by := Some u |}.

(** Modelled from the spec: the dictionary type [VariantData] is
    imported from [app/lib/scoresets.py], which is not among the sources.
    It holds the keyword arguments a variant is built from: the identifier
    triple and the [data] dictionary, whose keys are [score_data] and
    [count_data]. [V] is the type of the stored values. *)
Record VariantData (V : Type) : Type := {
  vd_hgvs_nt : option string;
  vd_hgvs_pro : option string;
  vd_hgvs_splice : option string;
  vd_data : gmap string (gmap string V)
}.
Arguments vd_hgvs_nt {V} _.
Arguments vd_hgvs_pro {V} _.
Arguments vd_hgvs_splice {V} _.
Arguments vd_data {V} _.

(** Modelled from the spec: the mapped class [Variant] is in
    [app/models/variant.py], which is not among the sources. These are
    the attributes that [create_variants] sets and [format_csv_rows]
    reads. *)
Record Variant (V : Type) : Type := {
  v_urn : string;
  scoreset_id : Z;
  hgvs_nt : option string;
  hgvs_pro : option string;
  hgvs_splice : option string;
  data : gmap string (gmap string V)
}.
Arguments v_urn {V} _.
Arguments scoreset_id {V} _.
Arguments hgvs_nt {V} _.
Arguments hgvs_pro {V} _.
Arguments hgvs_splice {V} _.
Arguments data {V} _.

(** [Variant(urn=urn, scoreset_id=scoreset.id, **kwargs)] *)
Definition make_variant {V} (u : string) (sid : Z) (kwargs : VariantData V) : Variant V :=
  {| v_urn := u; scoreset_id := sid;
     hgvs_nt := vd_hgvs_nt kwargs; hgvs_pro := vd_hgvs_pro kwargs;
     hgvs_splice := vd_hgvs_splice kwargs; data := vd_data kwargs |}.

(** ** The identifier assigner *)

(** [str] of an [int]. *)
Definition str_of_int (z : Z) : string := NilZero.string_of_int (Z.to_int z).

(** [range(n)] *)
Definition range (n : Z) : list Z := Z.of_nat <$> seq 0 (Z.to_nat n).

(** ["{}#{}".format(parent_urn, k)] *)
Definition format_urn (parent_urn : string) (k : Z) : string :=
  parent_urn +:+ "#" +:+ str_of_int k.

(** [bulk_create_urns]: the urns, and the scoreset with its counter
    assigned. *)
Definition bulk_create_urns (n : Z) (scoreset : Scoreset) (reset_counter : bool)
  : list string * Scoreset :=
  let start_value := if reset_counter then 0%Z else num_variants scoreset in
  let parent_urn := urn scoreset in
  let child_urns :=
    (fun i => format_urn parent_urn (start_value + (i + 1))) <$> range n in
  let current_value := (start_value + n)%Z in
  (child_urns, set_num_variants current_value scoreset).

(** ** The table loader

    [pandas.read_csv] is a library call; what the router decides is its
    arguments: the [dtype] dictionary, the [na_values] set, and the two
    steps applied to the frame it returns. The file is taken as the
    parser's reader leaves it: either the reader raised, or it has split
    the file, and then for each header name (names are unique once the
    parser has renamed repeats) there are the tokens of that column, top
    to bottom. [F] is the type of floats and [parse_float] the parser's
    number conversion. *)

Inductive cell (F : Type) : Type :=
| NaN
| Num (x : F)
| Bool (b : bool)
| Str (s : string).
Arguments NaN {F}.
Arguments Num {F} x.
Arguments Bool {F} b.
Arguments Str {F} s.

(** A data frame: the number of rows and the columns in order. *)
Record DataFrame (F : Type) : Type := {
  index : nat;
  series : list (string * list (cell F))
}.
Arguments index {F} _.
Arguments series {F} _.

(** [df.columns] *)
Definition columns {F} (df : DataFrame F) : list string := fst <$> series df.

(** [df[c]] as a lookup: the first column of that name. *)
Fixpoint assoc {A} (c : string) (l : list (string * A)) : option A :=
  match l with
  | [] => None
  | (k, v) :: l' => if decide (k = c) then Some v else assoc c l'
  end.

Definition column {F} (df : DataFrame F) (c : string) : option (list (cell F)) :=
  assoc c (series df).

(** An uploaded file after the reader: [Unreadable e] when the reader
    raised [e] ([EmptyDataError] for a file without a header line,
    [ParserError] for a line with more fields than the header,
    [UnicodeDecodeError] for bytes that are not UTF-8), and otherwise the
    number of data rows and the columns. *)
Inductive RawTable : Type :=
| Unreadable (e : exn)
| Table (n : nat) (fs : list (string * list string)).

Definition nrows (raw : RawTable) : nat :=
  match raw with
  | Unreadable _ => 0
  | Table n _ => n
  end.

Definition fields (raw : RawTable) : list (string * list string) :=
  match raw with
  | Unreadable _ => []
  | Table _ fs => fs
  end.

Record UploadFile : Type := {
  filename : string;
  file : RawTable
}.

Inductive dtype : Type := DStr | DFloat.

Module HGVSColumns.
Definition NUCLEOTIDE : string := "hgvs_nt".
Definition TRANSCRIPT : string := "hgvs_splice".
Definition PROTEIN : string := "hgvs_pro".
Definition options : list string := [NUCLEOTIDE; TRANSCRIPT; PROTEIN].
End HGVSColumns.

(** The [dtype] argument of both [read_csv] calls: [str] for the three
    identifier columns, [float] for the column named [scores]. *)
Definition upload_dtype (col : string) : option dtype :=
  if decide (col ∈ HGVSColumns.options) then Some DStr
  else if decide (col = "scores") then Some DFloat
  else None.

Section Loader.
Context {F : Type}.
Variable parse_float : string -> option F.
(** [na_values]: the set [extra_na_values] built from the imported
    [null_values_list], joined with the parser's default list
    ([keep_default_na=True]). The imported list is not part of the
    repository, so the set is a parameter. *)
Variable na_values : list string.

Definition is_na (t : string) : bool := bool_decide (t ∈ na_values).

(** A token of a column read as text. *)
Definition as_object (t : string) : cell F :=
  if is_na t then NaN else Str t.

(** A token of a column read as float: a token that is neither a null
    token nor a number raises. *)
Definition as_float (t : string) : result (cell F) :=
  if is_na t then Ok NaN
  else match parse_float t with
       | Some x => Ok (Num x)
       | None => Raise ValueError
       end.

(** A token that is neither a null token of the parser nor a number. *)
Definition bad_token (t : string) : Prop :=
  is_na t = false /\ parse_float t = None.

(** A token of a column tried as boolean: the parser's default true
    and false spellings. *)
Definition as_bool (t : string) : result (cell F) :=
  if is_na t then Ok NaN
  else if bool_decide (t ∈ ["True"; "TRUE"; "true"]) then Ok (Bool true)
  else if bool_decide (t ∈ ["False"; "FALSE"; "false"]) then Ok (Bool false)
  else Raise ValueError.

(** One column under its declared type. A column with no declared type
    is inferred: numeric when every token converts, else boolean when
    every token is a null token or a boolean spelling, and text
    otherwise. *)
Definition convert (d : option dtype) (toks : list string) : result (list (cell F)) :=
  match d with
  | Some DStr => Ok (as_object <$> toks)
  | Some DFloat => rmap as_float toks
  | None =>
      match rmap as_float toks with
      | Ok cs => Ok cs
      | Raise _ =>
          match rmap as_bool toks with
          | Ok cs => Ok cs
          | Raise _ => Ok (as_object <$> toks)
          end
      end
  end.

(** [pandas.read_csv]: what the reader raised is raised; a file with no
    columns raises [EmptyDataError]; otherwise the columns are converted
    one after the other. *)
Definition read_csv (dt : string -> option dtype) (raw : RawTable)
  : result (DataFrame F) :=
  match raw with
  | Unreadable e => Raise e
  | Table _ [] => Raise EmptyDataError
  | Table n fs =>
      rbind (rmap (fun p : string * list string =>
                     rbind (convert (dt p.1) p.2) (fun cs => Ok (p.1, cs)))
                  fs)
            (fun cols => Ok {| index := n; series := cols |})
  end.

(** [.replace(null_values_re, np.NaN)]: a text cell in which the
    pattern is found becomes NaN. *)
Definition replace_cell (c : cell F) : cell F :=
  match c with
  | Str s => if search true null_values_re s then NaN else c
  | _ => c
  end.

Definition replace (df : DataFrame F) : DataFrame F :=
  {| index := index df;
     series :=
       (fun p : string * list (cell F) => (p.1, replace_cell <$> p.2)) <$> series df |}.

(** [df[c] = np.NaN] for a column that the frame does not have: a new
    last column, NaN in every row. *)
Definition add_nan_column (df : DataFrame F) (c : string) : DataFrame F :=
  {| index := index df;
     series := series df ++ [(c, replicate (index df) NaN)] |}.

(** One turn of the loop over the identifier columns. *)
Definition add_if_missing (df : DataFrame F) (c : string) : DataFrame F :=
  if decide (c ∈ columns df) then df else add_nan_column df c.

(** The loop over [HGVSColumns.options()]. *)
Definition add_missing_hgvs (df : DataFrame F) : DataFrame F :=
  fold_left add_if_missing HGVSColumns.options df.

(** [read_csv(..).replace(..)] and the loop, as the router applies
    them to the scores file and to the counts file. *)
Definition load_table (raw : RawTable) : result (DataFrame F) :=
  rbind (read_csv upload_dtype raw)
        (fun df => Ok (add_missing_hgvs (replace df))).

(** The names outside the identifier columns, as a Python [set] and
    then [list(..)]: no repeats, order not fixed by the source. *)
Definition data_columns (df : DataFrame F) : list string :=
  elements (list_to_set (C := gset string)
              (filter (fun col => col ∉ HGVSColumns.options) (columns df))).

End Loader.

(** ** The exporter *)

(** The four column names that are not read from the data dictionary. *)
Definition fixed_columns : list string :=
  ["hgvs_nt"; "hgvs_pro"; "hgvs_splice"; "accession"].

Section Exporter.
Context {V : Type}.
(** [str(value)] for a stored value. *)
Variable py_str : V -> string.

(** [str] of an optional text attribute: [None] prints as its name. *)
Definition str_optional (o : option string) : string := default "None" o.

(** The chain of [if]/[elif] that picks the value of one column,
    before null normalisation. Subscripting a dictionary with a key it
    does not have raises [KeyError]. *)
Definition column_value (variant : Variant V) (dtype column_key : string)
  : result string :=
  if decide (column_key = "hgvs_nt") then Ok (str_optional (hgvs_nt variant))
  else if decide (column_key = "hgvs_pro") then Ok (str_optional (hgvs_pro variant))
  else if decide (column_key = "hgvs_splice") then Ok (str_optional (hgvs_splice variant))
  else if decide (column_key = "accession") then Ok (v_urn variant)
  else match data variant !! dtype with
       | None => Raise KeyError
       | Some category =>
           match category !! column_key with
           | None => Raise KeyError
           | Some value => Ok (py_str value)
           end
       end.

(** One turn of the loop over the requested columns. *)
Definition row_step (variant : Variant V) (dtype na_rep : string)
    (acc : result (gmap string string)) (column_key : string)
  : result (gmap string string) :=
  rbind acc (fun row =>
  rbind (column_value variant dtype column_key) (fun value =>
  let value := if is_null value then na_rep else value in
  Ok (<[column_key := value]> row))).

(** The inner loop: one row dictionary. *)
Definition format_row (variant : Variant V) (columns : list string)
    (dtype na_rep : string) : result (gmap string string) :=
  fold_left (row_step variant dtype na_rep) columns (Ok ∅).

Definition format_csv_rows (variants : list (Variant V)) (columns : list string)
    (dtype na_rep : string) : result (list (gmap string string)) :=
  rmap (fun variant => format_row variant columns dtype na_rep) variants.

End Exporter.

(** ** The database session

    [SessionLocal] is made with [autocommit=False]: what a request writes
    stays in its transaction until [commit]. [persisted] is what other
    requests read; [txn] is the view of the running request. *)
Record Store (V : Type) : Type := {
  scoresets : list Scoreset;
  variants : list (Variant V)
}.
Arguments scoresets {V} _.
Arguments variants {V} _.

Record Session (V : Type) : Type := {
  persisted : Store V;
  txn : Store V
}.
Arguments persisted {V} _.
Arguments txn {V} _.

(** The session a request starts with. *)
Definition fresh {V} (p : Store V) : Session V := {| persisted := p; txn := p |}.

(** A request handler: it reads and writes the session and returns or
    raises. *)
Definition M (V A : Type) : Type := Session V -> result A * Session V.

Definition ret {V A} (a : A) : M V A := fun s => (Ok a, s).

Definition bind {V A B} (m : M V A) (k : A -> M V B) : M V B :=
  fun s => match m s with
           | (Ok a, s') => k a s'
           | (Raise e, s') => (Raise e, s')
           end.

Definition lift {V A} (r : result A) : M V A := fun s => (r, s).

Notation "x <- m ;; k" := (bind m (fun x => k))
  (at level 100, m at next level, right associativity).
Notation "m ;;; k" := (bind m (fun _ => k))
  (at level 100, right associativity).

(** [Query.one_or_none] *)
Definition one_or_none {A} (l : list A) : result (option A) :=
  match l with
  | [] => Ok None
  | [x] => Ok (Some x)
  | _ => Raise MultipleResultsFound
  end.

(** What one request to the upload endpoint carries, the urn apart. *)
Record UploadRequest : Type := {
  req_counts_file : option UploadFile;
  req_scores_file : UploadFile;
  req_user : User
}.

(** [.filter(Scoreset.urn == urn).filter(Scoreset.private.is_(False))] *)
Definition public_with_urn (u : string) (s : Scoreset) : bool :=
  bool_decide (urn s = u) && negb (private s).

Section Upload.
Context {F V : Type}.
Variable parse_float : string -> option F.
Variable na_values : list string.
(** The merge routine [create_variants_data] is imported from a module
    that is not part of these sources; it is a parameter. *)
Variable create_variants_data :
  DataFrame F -> option (DataFrame F) -> result (list (VariantData V)).
(** Whether the database accepts a batch insert and a commit, and
    whether it answers the read that follows the commit. *)
Variable insert_ok : Store V -> list (Variant V) -> bool.
Variable commit_ok : Store V -> bool.
Variable refresh_ok : Store V -> bool.

Definition query_scoreset (u : string) : M V (option Scoreset) :=
  fun s => (one_or_none (List.filter (public_with_urn u) (scoresets (txn s))), s).

(** [db.bulk_save_objects]: the rows are inserted in the transaction. *)
Definition bulk_save_objects (vs : list (Variant V)) : M V unit :=
  fun s =>
    if insert_ok (txn s) vs
    then (Ok tt, {| persisted := persisted s;
                    txn := {| scoresets := scoresets (txn s);
                              variants := variants (txn s) ++ vs |} |})
    else (Raise DatabaseError, s).

(** [db.add(item)] for a row read through this session: the changed
    attributes replace the row of the same [id] in the transaction. *)
Definition add (item : Scoreset) : M V unit :=
  fun s =>
    (Ok tt, {| persisted := persisted s;
               txn := {| scoresets :=
                           (fun r => if decide (id r = id item) then item else r)
                             <$> scoresets (txn s);
                         variants := variants (txn s) |} |}).

(** [db.commit()]: the transaction becomes the persisted state, or the
    commit raises and the transaction is rolled back. *)
Definition commit : M V unit :=
  fun s =>
    if commit_ok (txn s)
    then (Ok tt, {| persisted := txn s; txn := txn s |})
    else (Raise DatabaseError, {| persisted := persisted s; txn := persisted s |}).

(** [db.refresh(item)]: the row is read again from the database; the
    read may fail, and it raises when the row is no longer there. *)
Definition refresh (item : Scoreset) : M V Scoreset :=
  fun s =>
    if refresh_ok (txn s)
    then match List.find (fun r => bool_decide (id r = id item)) (scoresets (txn s)) with
         | Some r => (Ok r, s)
         | None => (Raise DatabaseError, s)
         end
    else (Raise DatabaseError, s).

(** [scoreset.variants] *)
Definition variants_of (scoreset : Scoreset) : M V (list (Variant V)) :=
  fun s =>
    (Ok (List.filter (fun v => bool_decide (scoreset_id v = id scoreset))
           (variants (txn s))), s).

(** [create_variants]: the number of variants of the scoreset, and the
    scoreset object as [bulk_create_urns] left it. The handler calls it
    once in a session and does not use the number. *)
Definition create_variants (scoreset : Scoreset) (variants_data : list (VariantData V))
  : M V (Z * Scoreset) :=
  let num_variants := Z.of_nat (length variants_data) in
  let '(variant_urns, scoreset) := bulk_create_urns num_variants scoreset false in
  let variants :=
    (fun p : string * VariantData V => make_variant p.1 (id scoreset) p.2)
      <$> zip variant_urns variants_data in
  bulk_save_objects variants ;;;
  add scoreset ;;;
  vs <- variants_of scoreset ;;
  ret (Z.of_nat (length vs), scoreset).

(** [upload_scoreset_variant_data]. The scores file is a required
    form field, so [not scores_file] is false. *)
Definition upload_scoreset_variant_data (u : string)
    (counts_file : option UploadFile) (scores_file : UploadFile) (user : User)
  : M V (option Scoreset) :=
  item <- query_scoreset u ;;
  item <- lift (match item with
                | None => Raise AttributeError   (* [item.urn] on [None] *)
                | Some item => Ok item
                end) ;;
  if negb (PyStr.truthy (urn item)) then ret None else
  scores_df <- lift (load_table parse_float na_values (file scores_file)) ;;
  let score_columns := data_columns scores_df in
  counts <- lift (match counts_file with
                  | Some counts_file =>
                      if PyStr.truthy (filename counts_file)
                      then rbind (load_table parse_float na_values (file counts_file))
                             (fun counts_df =>
                                Ok (Some counts_df, data_columns counts_df))
                      else Ok (None, [])
                  | None => Ok (None, [])
                  end) ;;
  let '(counts_df, count_columns) := counts in
  variants_data <- lift (create_variants_data scores_df counts_df) ;;
  created <- create_variants item variants_data ;;
  let item := created.2 in
  let item :=
    set_dataset_columns
      {| count_columns := count_columns; score_columns := score_columns |} item in
  let item := set_modified_by user item in
  add item ;;;
  commit ;;;
  item <- refresh item ;;
  ret (Some item).

(** A sequence of requests to the upload endpoint for one urn. Modelled
    from the spec: [deps.get_db], which hands each request its session,
    is not among the sources; a request is taken to run in a session of
    its own on the tables that the requests before it left persisted, so
    each one reads the scoreset, counter included, through its query.
    The result is the outcome of each request and the persisted tables
    after the last. *)
Fixpoint uploads (u : string) (requests : list UploadRequest) (p : Store V)
  : list (result (option Scoreset)) * Store V :=
  match requests with
  | [] => ([], p)
  | request :: rest =>
      let '(out, s) :=
        upload_scoreset_variant_data u (req_counts_file request)
          (req_scores_file request) (req_user request) (fresh p) in
      let '(outs, p') := uploads u rest (persisted s) in
      (out :: outs, p')
  end.

End Upload.

(** ** The read endpoints of the scoreset router

    A handler returns, raises [HTTPException] with a status code and a
    detail text, or lets another exception escape. *)
Inductive outcome (A : Type) : Type :=
| Return (a : A)
| Http (status_code : Z) (detail : string)
| Unhandled (e : exn).
Arguments Return {A} a.
Arguments Http {A} status_code detail.
Arguments Unhandled {A} e.

(** [fetch_scoreset]: the query of the upload handler, with
    [MultipleResultsFound] caught. A mapped object is always truthy, so
    [not item] is the test for [None]. *)
Definition fetch_scoreset {V} (u : string) (db : Store V) : outcome Scoreset :=
  match one_or_none (List.filter (public_with_urn u) (scoresets db)) with
  | Raise MultipleResultsFound =>
      Http 500 ("Multiple scoresets with URN " +:+ u +:+ " were found.")
  | Raise e => Unhandled e
  | Ok None => Http 404 ("Scoreset with URN " +:+ u +:+ " not found")
  | Ok (Some item) => Return item
  end.

(** [scoreset.variants]: the variants whose [scoreset_id] is the id of
    the scoreset. *)
Definition scoreset_variants {V} (scoreset : Scoreset) (db : Store V) : list (Variant V) :=
  List.filter (fun v => bool_decide (scoreset_id v = id scoreset)) (variants db).

(** [csv.DictWriter] turns a row dictionary into the list of its fields:
    a key that is not among the field names is an error
    ([extrasaction] is left at [raise]), a field name that is not a key
    gives the empty text. *)
Definition dict_to_list (fieldnames : list string) (rowdict : gmap string string)
  : result (list string) :=
  if bool_decide (Forall (fun k => k ∈ fieldnames) (map_to_list rowdict).*1)
  then Ok ((fun key => default "" (rowdict !! key)) <$> fieldnames)
  else Raise ValueError.

(** The fixed columns of the scores file, in the order of the handler. *)
Definition scores_header : list string :=
  ["accession"; "hgvs_nt"; "hgvs_pro"; "hgvs_splice"].

(** [fetch_scoreset_scores]. The result is what the csv writer is handed:
    the header and, for each variant, the fields of its line; the text
    of the response is the writer's rendering of these. [id] in the
    detail text of the 404 is the built-in function, not the urn. The
    query has no [order_by], and neither has the relationship to the
    variants: both are taken in table order. The column manifest is the
    record above, so a manifest without the key [score_columns] is
    outside the model. *)
Definition fetch_scoreset_scores {V} (py_str : V -> string) (u : string) (db : Store V)
  : outcome (list string * list (list string)) :=
  match head (List.filter (fun s => bool_decide (urn s = u)) (scoresets db)) with
  | None => Http 404 "Recipe with ID <built-in function id> not found"
  | Some scoreset =>
      let columns := (scores_header ++ score_columns (dataset_columns scoreset))%list in
      let type_column := "score_data" in
      match format_csv_rows py_str (scoreset_variants scoreset db) columns type_column "NA" with
      | Raise e => Unhandled e
      | Ok rows =>
          match rmap (dict_to_list columns) rows with
          | Raise e => Unhandled e
          | Ok lines => Return (columns, lines)
          end
      end
  end.

(** [db.add] seen on the table: the row with the id of [item] becomes
    [item]. *)
Definition write_back (item : Scoreset) (table : list Scoreset) : list Scoreset :=
  (fun r => if decide (id r = id item) then item else r) <$> table.

(** A scoreset row with its [private] flag replaced. *)
Definition with_private (b : bool) (s : Scoreset) : Scoreset :=
  {| id := id s; urn := urn s; private := b; num_variants := num_variants s;
     dataset_columns := dataset_columns s; modified_by := modified_by s |}.

(** [c in s] for a single character [c]. *)
Fixpoint occurs (c : ascii) (s : string) : bool :=
  match s with
  | EmptyString => false
  | String a r => Ascii.eqb a c || occurs c r
  end.

(** The numbering invariant of the persisted tables: scoresets are told
    apart by their id and by their urn, no counter is negative, every
    variant carries the urn of a scoreset of the table followed by a
    number between 1 and the counter of that scoreset, and no two
    variants carry the same urn. *)
Record numbering_invariant {V} (st : Store V) : Prop := {
  ids_unique :
    forall s1 s2, s1 ∈ scoresets st -> s2 ∈ scoresets st -> id s1 = id s2 -> s1 = s2;
  urns_unique :
    forall s1 s2, s1 ∈ scoresets st -> s2 ∈ scoresets st -> urn s1 = urn s2 -> s1 = s2;
  counters_nonnegative :
    forall s, s ∈ scoresets st -> (0 <= num_variants s)%Z;
  variants_numbered :
    forall v, v ∈ variants st ->
      exists s k, s ∈ scoresets st /\ scoreset_id v = id s /\
                  v_urn v = format_urn (urn s) k /\ (1 <= k <= num_variants s)%Z;
  variant_urns_unique : NoDup (v_urn <$> variants st)
}.

(** ** Updating a scoreset

    [update_scoreset] assigns attributes by name, so here a scoreset row
    is its attribute dictionary and the payload is the list of
    [vars(item_update).items()]. The view model [ScoresetUpdate] makes
    [doi_identifiers], [pubmed_identifiers] and [target_gene] required,
    the last one a view-model object. *)
Module Update.

#[local] Set Warnings "-register-all".

Inductive pyval : Type :=
| PyNone
| PyBool (b : bool)
| PyInt (z : Z)
| PyStr (s : string)
| PyList (xs : list pyval)
| PyDict (kvs : list (string * pyval))
| PyModel (fields : list (string * pyval)).

(** Truth value testing. A view-model object defines neither
    [__bool__] nor [__len__] and is always true. *)
Definition truthy (v : pyval) : bool :=
  match v with
  | PyNone => false
  | PyBool b => b
  | PyInt z => negb (z =? 0)%Z
  | PyStr s => PyStr.truthy s
  | PyList xs => match xs with [] => false | _ => true end
  | PyDict kvs => match kvs with [] => false | _ => true end
  | PyModel _ => true
  end.

(** What one turn of the loop,
    [setattr(item, var, value) if value else None], does to the
    attributes when [setattr] returns. *)
Definition assign (item : gmap string pyval) (p : string * pyval) : gmap string pyval :=
  if truthy p.2 then <[p.1 := p.2]> item else item.

(** What the loop over [vars(item_update).items()] does to the
    attributes when no [setattr] raises. *)
Definition apply_update (item : gmap string pyval) (item_update : list (string * pyval))
  : gmap string pyval :=
  fold_left assign item_update item.

(** One turn of the loop. [setattr] on a mapped object can raise: a
    relationship does not take an object that is not mapped, which the
    view models of the payload are not, and a property without a setter
    takes nothing. Modelled from the spec: the mapped class [Scoreset]
    is in [app/models/scoreset.py], which is not among the sources, so
    which assignments it refuses is the parameter [rejects], giving the
    exception raised. *)
Definition update_step (rejects : string -> pyval -> option exn)
    (acc : result (gmap string pyval)) (p : string * pyval)
  : result (gmap string pyval) :=
  rbind acc (fun item =>
    if truthy p.2
    then match rejects p.1 p.2 with
         | Some e => Raise e
         | None => Ok (<[p.1 := p.2]> item)
         end
    else Ok item).

(** The loop over [vars(item_update).items()]: it stops at the first
    exception. *)
Definition update_loop (rejects : string -> pyval -> option exn)
    (item : gmap string pyval) (item_update : list (string * pyval))
  : result (gmap string pyval) :=
  fold_left (update_step rejects) item_update (Ok item).

(** The two filters of the query: [urn == urn] and [private IS false]. *)
Definition is_public_with_urn (u : string) (item : gmap string pyval) : bool :=
  match item !! "urn", item !! "private" with
  | Some (PyStr u'), Some (PyBool false) => bool_decide (u' = u)
  | _, _ => false
  end.

(** [update_scoreset] over the table of scoreset rows: the outcome and
    the persisted table after the call. Nothing is persisted before
    [db.commit()], so an exception of the loop or of the commit leaves
    the table as it was; [commit_ok] and [refresh_ok] say whether the
    database accepts the commit and answers the read that follows it. *)
Definition update_scoreset (rejects : string -> pyval -> option exn)
    (commit_ok refresh_ok : list (gmap string pyval) -> bool)
    (u : string) (item_update : option (list (string * pyval)))
    (table : list (gmap string pyval))
  : result (option (gmap string pyval)) * list (gmap string pyval) :=
  match item_update with
  | None => (Ok None, table)
  | Some item_update =>
      match one_or_none (List.filter (is_public_with_urn u) table) with
      | Raise e => (Raise e, table)
      | Ok None => (Ok None, table)
      | Ok (Some item) =>
          match update_loop rejects item item_update with
          | Raise e => (Raise e, table)
          | Ok item =>
              let table' :=
                (fun r => if is_public_with_urn u r then item else r) <$> table in
              if commit_ok table'
              then if refresh_ok table'
                   then (Ok (Some item), table')
                   else (Raise DatabaseError, table')
              else (Raise DatabaseError, table)
          end
      end
  end.

End Update.

(** The value that the update loop leaves in attribute [f], when it
    assigns one: the last truthy value that the payload gives for [f]. *)
Definition last_assigned (f : string) (item_update : list (string * Update.pyval))
  : option Update.pyval :=
  fold_left
    (fun acc p => if Update.truthy p.2 && bool_decide (p.1 = f) then Some p.2 else acc)
    item_update None.

(** ** Keywords of an experiment ([mavedb/models/experiment.py]) *)
Module ExperimentModel.

(** Modelled from the spec: the mapped class [Keyword] is in
    [mavedb/models/keyword.py], which is not among the sources. The
    experiment reads its [text]; [keyword_id] is the primary key, absent
    on an object that has not been inserted. *)
Record Keyword : Type := {
  keyword_id : option Z;
  text : option string
}.

(** The attributes of an experiment that its keyword methods and the
    insert listener use. *)
Record Experiment : Type := {
  experiment_set_id : option Z;
  created_by : option User;
  modified_by_obj : option User;
  keyword_objs : list Keyword
}.

Definition set_keyword_objs (objs : list Keyword) (self : Experiment) : Experiment :=
  {| experiment_set_id := experiment_set_id self; created_by := created_by self;
     modified_by_obj := modified_by_obj self; keyword_objs := objs |}.

(** The property [keywords]. *)
Definition keywords (self : Experiment) : list string :=
  omap text (keyword_objs self).

(** [_find_or_create_keyword]: [db] is the keyword table as the session
    sees it; the new object is not added to the session. *)
Definition _find_or_create_keyword (db : list Keyword) (keyword_text : string)
  : result Keyword :=
  rbind (one_or_none (List.filter (fun k => bool_decide (text k = Some keyword_text)) db))
        (fun keyword_obj =>
           match keyword_obj with
           | None => Ok {| keyword_id := None; text := Some keyword_text |}
           | Some keyword_obj => Ok keyword_obj
           end).

(** [set_keywords] *)
Definition set_keywords (db : list Keyword) (keywords : option (list string))
    (self : Experiment) : result Experiment :=
  match keywords with
  | None => Ok (set_keyword_objs [] self)
  | Some keywords =>
      rbind (rmap (_find_or_create_keyword db) keywords)
            (fun objs => Ok (set_keyword_objs objs self))
  end.

End ExperimentModel.

(** ** Statistics ([mavedb/routers/statistics.py])

    The handlers run grouped counting queries and post-process the rows;
    the rows are taken as given and the post-processing is modelled. *)
Module Statistics.

(** The loop of [target_genes_by_field] for the field [organism], and
    the test after it. [rows] are the (organism name, count) pairs of the
    targets given by sequence, [accession_count] the number of targets
    given by accession. A name may be NULL. *)
Definition organism_step (accession_count : Z)
    (acc : result (gmap (option string) Z)) (row : option string * Z)
  : result (gmap (option string) Z) :=
  rbind acc (fun organism_counts =>
    let organism_counts :=
      match organism_counts !! row.1 with
      | Some n => <[row.1 := (n + row.2)%Z]> organism_counts
      | None => <[row.1 := row.2]> organism_counts
      end in
    if decide (row.1 = Some "Homo Sapiens")
    then match organism_counts !! Some "Homo sapiens" with
         | Some n => Ok (<[Some "Homo sapiens" := (n + accession_count)%Z]> organism_counts)
         | None => Raise KeyError
         end
    else Ok organism_counts).

Definition organism_counts (rows : list (option string * Z)) (accession_count : Z)
  : result (gmap (option string) Z) :=
  rbind (fold_left (organism_step accession_count) rows (Ok ∅))
        (fun organism_counts =>
           match organism_counts !! Some "Homo sapiens" with
           | None =>
               if negb (accession_count =? 0)%Z
               then Ok (<[Some "Homo sapiens" := accession_count]> organism_counts)
               else Ok organism_counts
           | Some _ => Ok organism_counts
           end).

(** The sum of the counts of the rows named [k]. *)
Definition total_for (k : option string) (rows : list (option string * Z)) : Z :=
  foldr (fun row acc => if decide (row.1 = k) then (row.2 + acc)%Z else acc) 0%Z rows.

(** The loop of [_record_from_field_and_model] for publication
    identifiers: the rows (identifier, database name, count) become a
    dictionary by database name of dictionaries by identifier. *)
Definition publication_step (publication_identifiers : gmap string (gmap string Z))
    (identifier : string * string * Z) : gmap string (gmap string Z) :=
  let db_name := identifier.1.2 in
  match publication_identifiers !! db_name with
  | Some by_identifier =>
      <[db_name := <[identifier.1.1 := identifier.2]> by_identifier]>
        publication_identifiers
  | None =>
      <[db_name := {[ identifier.1.1 := identifier.2 ]}]> publication_identifiers
  end.

Definition publication_identifier_counts (rows : list (string * string * Z))
  : gmap string (gmap string Z) :=
  fold_left publication_step rows ∅.

End Statistics.

(** ** Sample data used in the examples below *)

(** A number parser for the examples: signed decimal integers. *)
Definition parse_decimal (t : string) : option Z :=
  Z.of_int <$> NilZero.int_of_string t.

Definition sample_na_values : list string := [""; "NA"; "NaN"; "null"].

Definition sample_scoreset : Scoreset :=
  {| id := 1; urn := "urn:mavedb:00000001-a-1"; private := false;
     num_variants := 2;
     dataset_columns := {| count_columns := []; score_columns := ["score"] |};
     modified_by := None |}.

Definition sample_variant_data (nt : string) : VariantData Z :=
  {| vd_hgvs_nt := Some nt; vd_hgvs_pro := None; vd_hgvs_splice := None;
     vd_data := {[ "score_data" := {[ "score" := 1%Z ]}; "count_data" := ∅ ]} |}.

Definition sample_store : Store Z :=
  {| scoresets := [sample_scoreset];
     variants :=
       [make_variant "urn:mavedb:00000001-a-1#1" 1 (sample_variant_data "c.1A>G");
        make_variant "urn:mavedb:00000001-a-1#2" 1 (sample_variant_data "c.2C>T")] |}.

Definition scores_without_identifiers : RawTable :=
  Table 2 [("score", ["1"; "NA"])].

Definition score_with_text : RawTable :=
  Table 1 [("score", ["abc"])].

Definition malformed_scores_only : RawTable :=
  Table 1 [("scores", ["abc"])].

Definition variant_without_score : Variant Z :=
  {| v_urn := "urn:mavedb:00000001-a-1#1"; scoreset_id := 1;
     hgvs_nt := Some "c.1A>G"; hgvs_pro := None; hgvs_splice := None;
     data := {[ "score_data" := ∅; "count_data" := ∅ ]} |}.

(** A stand-in for the merge routine: one variant whatever the frames. *)
Definition sample_merge (scores : DataFrame Z) (counts : option (DataFrame Z))
  : result (list (VariantData Z)) :=
  Ok [sample_variant_data "c.3G>A"].

Definition sample_scores_file : UploadFile :=
  {| filename := "scores.csv";
     file := Table 1 [("hgvs_nt", ["c.3G>A"]); ("score", ["1"])] |}.

Definition sample_request : UploadRequest :=
  {| req_counts_file := None; req_scores_file := sample_scores_file; req_user := 5%Z |}.

Definition malformed_scores_file : UploadFile :=
  {| filename := "scores.csv";
     file := Table 1 [("hgvs_nt", ["c.3G>A"]); ("scores", ["abc"])] |}.

Definition scores_file_with_se : UploadFile :=
  {| filename := "scores.csv";
     file := Table 1 [("hgvs_nt", ["c.3G>A"]); ("score", ["1"]); ("se", ["2"])] |}.

Definition scores_with_scores_column : RawTable :=
  Table 2 [("hgvs_pro", ["p.Ala1Gly"; "NA"]); ("scores", ["1"; "NaN"])].

Definition store_with_duplicate_urn : Store Z :=
  {| scoresets := [sample_scoreset; set_num_variants 0 sample_scoreset];
     variants := [] |}.

(* ================================================================== *)
(** * Properties *)
(* ================================================================== *)

(** ** Strings *)
Module PyStrFacts.
Import PyStr.



Lemma isspace_tolower c : isspace (tolower c) = isspace c.
Proof. destruct c as [[] [] [] [] [] [] [] []]; reflexivity. Qed.






End PyStrFacts.

(** ** Regular expressions: the matcher decides the language *)
Module ReFacts.
Import PyStr Re.

Lemma append_nil_l (s : string) : "" +:+ s = s.
Proof. reflexivity. Qed.

Lemma append_cons a (s t : string) : String a s +:+ t = String a (s +:+ t).
Proof. reflexivity. Qed.















End ReFacts.

(** ** The null normaliser *)


Example is_null_tokens :
  is_null "NaN" = true /\ is_null "  N/A " = true /\ is_null " " = true /\
  is_null "" = true /\ is_null "Undefined" = true /\
  is_null "0" = false /\ is_null "nano" = false /\ is_null "n a" = false.
Proof. repeat split. Qed.



(** ** The null normaliser on code points *)
Module CodePointFacts.
Import CodePoints.












End CodePointFacts.







(** ** The identifier assigner *)
Module UrnFacts.

Lemma to_int_not_nil z :
  Z.to_int z <> Decimal.Pos Decimal.Nil /\ Z.to_int z <> Decimal.Neg Decimal.Nil.
Proof.
  destruct z as [|p|p]; simpl; split; try discriminate;
    intros [= H]; by apply DecimalPos.Unsigned.to_uint_nonnil in H.
Qed.

(** Two integers that print alike are equal. *)
Lemma str_of_int_inj : Inj (=) (=) str_of_int.
Proof.
  intros x y H. unfold str_of_int in H.
  apply DecimalZ.to_int_inj.
  destruct (to_int_not_nil x) as [Hx1 Hx2], (to_int_not_nil y) as [Hy1 Hy2].
  pose proof (NilZero.isi _ Hx1 Hx2) as Ex.
  pose proof (NilZero.isi _ Hy1 Hy2) as Ey.
  rewrite H in Ex. congruence.
Qed.

Lemma format_urn_inj parent : Inj (=) (=) (format_urn parent).
Proof.
  intros x y H. unfold format_urn in H.
  apply String.app_inj in H. apply String.app_inj in H.
  by apply str_of_int_inj.
Qed.

Lemma length_range n : length (range n) = Z.to_nat n.
Proof. unfold range. by rewrite length_fmap, length_seq. Qed.

Lemma lookup_range n (k : nat) :
  (k < Z.to_nat n)%nat -> range n !! k = Some (Z.of_nat k).
Proof.
  intros H. unfold range. rewrite list_lookup_fmap, lookup_seq_lt by done. done.
Qed.

Lemma NoDup_range n : NoDup (range n).
Proof.
  unfold range. apply NoDup_fmap_2; [intros ?? ?; lia | apply NoDup_seq].
Qed.


End UrnFacts.

Example bulk_create_urns_continues :
  (bulk_create_urns 3
     {| id := 7; urn := "urn:mavedb:00000001-a-1"; private := false;
        num_variants := 9;
        dataset_columns := {| count_columns := []; score_columns := [] |};
        modified_by := None |} false).1
  = ["urn:mavedb:00000001-a-1#10"; "urn:mavedb:00000001-a-1#11";
     "urn:mavedb:00000001-a-1#12"].
Proof. reflexivity. Qed.

(** C2. For n >= 0 and a scoreset whose counter is c, [bulk_create_urns]
    returns exactly n urns, the k-th (from 0) being the parent urn, a
    hash sign and the decimal of start+k+1, where start is c without
    reset and 0 with reset; the counter of the scoreset becomes start+n
    and no other attribute changes. *)
Theorem bulk_create_urns_spec (n : Z) (scoreset : Scoreset) (reset_counter : bool) :
  (0 <= n)%Z ->
  let start := if reset_counter then 0%Z else num_variants scoreset in
  let out := bulk_create_urns n scoreset reset_counter in
  Z.of_nat (length out.1) = n /\
  (forall k : nat, (Z.of_nat k < n)%Z ->
     out.1 !! k = Some (urn scoreset +:+ "#" +:+ str_of_int (start + Z.of_nat k + 1))) /\
  num_variants out.2 = (start + n)%Z /\
  out.2 = set_num_variants (start + n) scoreset.
Proof.
  intros Hn start out. subst out. unfold bulk_create_urns. fold start. simpl.
  repeat split.
  - rewrite length_fmap, UrnFacts.length_range. lia.
  - intros k Hk. rewrite list_lookup_fmap, UrnFacts.lookup_range by lia.
    simpl. by replace (start + (Z.of_nat k + 1))%Z with (start + Z.of_nat k + 1)%Z by lia.
Qed.

Lemma bulk_create_urns_spec_witness :
  (0 <= 2)%Z /\
  (bulk_create_urns 2
     {| id := 1; urn := "urn:mavedb:00000002-a-1"; private := false;
        num_variants := 5;
        dataset_columns := {| count_columns := []; score_columns := [] |};
        modified_by := None |} true).1 !! 1%nat
  = Some "urn:mavedb:00000002-a-1#2".
Proof.
  split; [lia|].
  refine (proj1 (proj2 (bulk_create_urns_spec 2 _ true _)) 1%nat _); lia.
Defined.

(** ** Ingestion and the counter *)
Section IngestionFacts.
Context {V : Type}.
Variable insert_ok : Store V -> list (Variant V) -> bool.

Lemma fmap_urn_zip (sid : Z) (urns : list string) (vd : list (VariantData V)) :
  length urns = length vd ->
  v_urn <$> ((fun p : string * VariantData V => make_variant p.1 sid p.2)
               <$> zip urns vd) = urns.
Proof.
  revert vd. induction urns as [|u urns IH]; intros [|d vd]; simpl; try done.
  intros [= H]. f_equal. by apply IH.
Qed.

(** What one successful [create_variants] does to the session and to
    the scoreset object. *)
Lemma create_variants_ok scoreset variants_data s r s' :
  create_variants insert_ok scoreset variants_data s = (Ok r, s') ->
  exists new,
    variants (txn s') = (variants (txn s) ++ new)%list /\
    v_urn <$> new =
      ((fun i => format_urn (urn scoreset) (num_variants scoreset + (i + 1)))
         <$> range (Z.of_nat (length variants_data))) /\
    Forall (fun v => scoreset_id v = id scoreset) new /\
    r.2 = set_num_variants
            (num_variants scoreset + Z.of_nat (length variants_data)) scoreset /\
    persisted s' = persisted s.
Proof.
  unfold create_variants, bulk_create_urns, bind, bulk_save_objects, add,
    variants_of, ret. cbn beta iota zeta.
  destruct (insert_ok (txn s) _) eqn:E; [|discriminate].
  intros [= <- <-]. eexists. simpl. split; [reflexivity|].
  split; [|split; [|done]].
  - apply fmap_urn_zip.
    by rewrite length_fmap, UrnFacts.length_range, Nat2Z.id.
  - apply Forall_fmap, Forall_forall. by intros [u d] _.
Qed.

Lemma urns_NoDup parent c n :
  NoDup ((fun i => format_urn parent (c + (i + 1))) <$> range n).
Proof.
  apply NoDup_fmap_2; [|apply UrnFacts.NoDup_range].
  intros i j H. apply UrnFacts.format_urn_inj in H. lia.
Qed.

End IngestionFacts.

(** ** Loops that may raise *)
Section RmapFacts.
Context {A B : Type}.
Variable f : A -> result B.

Lemma rmap_ok l ys : rmap f l = Ok ys <-> Forall2 (fun x y => f x = Ok y) l ys.
Proof.
  revert ys. induction l as [|x l IH]; intros ys; simpl.
  - split; [intros [= <-]; constructor | by inversion 1].
  - destruct (f x) as [y|e] eqn:Ex; simpl.
    + destruct (rmap f l) as [ys'|e] eqn:El; simpl.
      * split.
        -- intros [= <-]. constructor; [done | by apply IH].
        -- inversion 1 as [|? y0 ? ys0 Hy Hl]; subst.
           apply IH in Hl. congruence.
      * split; [done|]. inversion 1 as [|? y0 ? ys0 Hy Hl]; subst.
        apply IH in Hl. discriminate.
    + split; [done|]. inversion 1; congruence.
Qed.

(** The loop raises exactly when its body raises on some element. *)
Lemma rmap_raise l :
  (exists e, rmap f l = Raise e) <-> exists x e, x ∈ l /\ f x = Raise e.
Proof.
  induction l as [|x l IH]; simpl.
  - split; [by intros [? ?] | intros (? & ? & H & _); by apply elem_of_nil in H].
  - destruct (f x) as [y|e] eqn:Ex; simpl.
    + destruct (rmap f l) as [ys|e] eqn:El; simpl.
      * split; [by intros [? ?]|].
        intros (x' & e & Hin & Hx'). apply elem_of_cons in Hin as [->|Hin]; [congruence|].
        destruct (proj2 IH) as [? ?]; [eauto | discriminate].
      * split; [|eauto]. intros _.
        destruct (proj1 IH) as (x' & e' & Hin & Hx'); [eauto|].
        exists x', e'. split; [by right | done].
    + split; [|eauto]. intros _. exists x, e. split; [by left | done].
Qed.

Lemma rmap_raise_inv l e :
  rmap f l = Raise e -> exists x, x ∈ l /\ f x = Raise e.
Proof.
  induction l as [|x l IH]; simpl; [done|].
  destruct (f x) as [y|e'] eqn:Ex; simpl.
  - destruct (rmap f l) as [ys|e'] eqn:El; simpl; [done|].
    intros [= ->]. destruct IH as (x' & Hin & Hx'); [done|].
    exists x'. split; [by right | done].
  - intros [= ->]. exists x. split; [by left | done].
Qed.

End RmapFacts.

(** ** The table loader *)
Section LoaderFacts.
Context {F : Type}.
Variable parse_float : string -> option F.
Variable na_values : list string.


Lemma as_float_raise t e :
  as_float parse_float na_values t = Raise e <->
  e = ValueError /\ bad_token parse_float na_values t.
Proof.
  unfold as_float, bad_token. destruct (is_na na_values t) eqn:Ena.
  - split; [discriminate | intros [_ [? _]]; discriminate].
  - destruct (parse_float t) eqn:Ep.
    + split; [discriminate | intros [_ [_ ?]]; discriminate].
    + split; [by intros [= <-] | by intros [-> _]].
Qed.

Lemma convert_raise d toks e :
  convert parse_float na_values d toks = Raise e <->
  d = Some DFloat /\ e = ValueError /\ exists t, t ∈ toks /\ bad_token parse_float na_values t.
Proof.
  unfold convert. destruct d as [[]|].
  - split; [done | by intros [? _]].
  - split.
    + intros H. apply rmap_raise_inv in H as (t & Hin & Ht).
      apply as_float_raise in Ht as [-> Hb]. eauto.
    + intros (_ & -> & t & Hin & Hb).
      destruct (proj2 (rmap_raise (as_float parse_float na_values) toks)) as [e He].
      { exists t, ValueError. split; [done | by apply as_float_raise]. }
      pose proof He as He'. apply rmap_raise_inv in He' as (t' & _ & Ht').
      apply as_float_raise in Ht' as [-> _]. done.
  - split; [|by intros [? _]].
    destruct (rmap (as_float parse_float na_values) toks); [done|].
    by destruct (rmap (as_bool na_values) toks).
Qed.

Lemma upload_dtype_float c : upload_dtype c = Some DFloat <-> c = "scores".
Proof.
  unfold upload_dtype. destruct (decide (c ∈ HGVSColumns.options)) as [Hin|Hin].
  - split; [done|]. intros ->. exfalso.
    unfold HGVSColumns.options in Hin. rewrite !elem_of_cons in Hin.
    destruct Hin as [?|[?|[?|Hin]]]; try discriminate. by apply elem_of_nil in Hin.
  - destruct (decide (c = "scores")); split; done.
Qed.

(** Once the reader has split a file that has columns, the parser call
    of the router raises exactly when the column named [scores] holds a
    token that is neither null nor a number; the exception is then
    [ValueError]. *)
Lemma read_csv_table_raise n fs e :
  fs <> [] ->
  read_csv parse_float na_values upload_dtype (Table n fs) = Raise e <->
  e = ValueError /\
  exists toks t, ("scores", toks) ∈ fs /\ t ∈ toks /\ bad_token parse_float na_values t.
Proof.
  intros Hfs.
  set (body := fun p : string * list string =>
                 rbind (convert parse_float na_values (upload_dtype p.1) p.2) (fun cs => Ok (p.1, cs))).
  assert (Hread : read_csv parse_float na_values upload_dtype (Table n fs) =
            rbind (rmap body fs) (fun cols => Ok {| index := n; series := cols |})).
  { by destruct fs. }
  rewrite Hread. clear Hread Hfs.
  assert (Hbody : forall p e, body p = Raise e <->
            p.1 = "scores" /\ e = ValueError /\ exists t, t ∈ p.2 /\ bad_token parse_float na_values t).
  { intros p e0. unfold body.
    destruct (convert parse_float na_values (upload_dtype p.1) p.2) as [cs|e1] eqn:Ec; simpl.
    - split; [done|]. intros (Hp & -> & Ht).
      assert (convert parse_float na_values (upload_dtype p.1) p.2 = Raise ValueError) as Hr
        by (apply convert_raise; split; [by apply upload_dtype_float | done]).
      congruence.
    - apply convert_raise in Ec as (Hd & -> & Ht).
      apply upload_dtype_float in Hd. split; [by intros [= <-] | by intros (_ & -> & _)]. }
  destruct (rmap body fs) as [cols|e1] eqn:Er; simpl.
  - split; [done|]. intros (-> & toks & t & Hin & Ht & Hb).
    destruct (proj2 (rmap_raise body fs)) as [e' He']; [|congruence].
    exists ("scores", toks), ValueError. split; [done|].
    apply Hbody. simpl. eauto.
  - pose proof Er as Er'. apply rmap_raise_inv in Er' as ([c toks] & Hin & Hp).
    apply Hbody in Hp as (Hc & -> & t & Ht & Hb). simpl in *. subst c.
    split; [intros [= <-]; split; [done | eauto] | by intros [-> _]].
Qed.

(** The three ways in which the parser call of the router raises. *)
Lemma read_csv_raise raw e :
  read_csv parse_float na_values upload_dtype raw = Raise e <->
  raw = Unreadable e \/
  ((exists n, raw = Table n []) /\ e = EmptyDataError) \/
  (e = ValueError /\
   exists toks t,
     ("scores", toks) ∈ fields raw /\ t ∈ toks /\ bad_token parse_float na_values t).
Proof.
  destruct raw as [e0|n [|p fs]].
  - simpl. split.
    + intros [= ->]. by left.
    + intros [[= ->]|[[[? ?] _]|(_ & ? & ? & Hin & _)]]; [done | done |].
      by apply elem_of_nil in Hin.
  - simpl. split.
    + intros [= <-]. right. left. eauto.
    + intros [?|[[_ ->]|(_ & ? & ? & Hin & _)]]; [done | done |].
      by apply elem_of_nil in Hin.
  - rewrite read_csv_table_raise by done. simpl. split.
    + intros H. right. by right.
    + intros [?|[[[? ?] _]|H]]; [done | done | exact H].
Qed.

(** A bad token in the column named [scores] makes the parser call
    raise [ValueError]. *)
Lemma read_csv_bad_token raw toks t :
  ("scores", toks) ∈ fields raw -> t ∈ toks -> bad_token parse_float na_values t ->
  read_csv parse_float na_values upload_dtype raw = Raise ValueError.
Proof.
  intros Hin Ht Hb. destruct raw as [e0|n fs]; simpl in Hin.
  - by apply elem_of_nil in Hin.
  - apply read_csv_table_raise.
    + intros ->. by apply elem_of_nil in Hin.
    + split; [done|]. by exists toks, t.
Qed.

(** A successful parser call has converted every column. *)
Lemma read_csv_ok_inv raw df :
  read_csv parse_float na_values upload_dtype raw = Ok df ->
  exists cols,
    rmap (fun p : string * list string =>
            rbind (convert parse_float na_values (upload_dtype p.1) p.2)
                  (fun cs => Ok (p.1, cs)))
         (fields raw) = Ok cols /\
    df = {| index := nrows raw; series := cols |}.
Proof.
  destruct raw as [e0|n [|p0 fs]]; [done | done |].
  cbn [read_csv nrows fields].
  destruct (rmap _ (p0 :: fs)) as [cols|e]; simpl; [|done].
  intros [= <-]. eauto.
Qed.

Lemma read_csv_shape raw df :
  read_csv parse_float na_values upload_dtype raw = Ok df ->
  index df = nrows raw /\ columns df = fst <$> fields raw.
Proof.
  intros H. apply read_csv_ok_inv in H as (cols & Er & ->).
  split; [done|]. unfold columns. simpl.
  apply rmap_ok in Er.
  induction Er as [|[c toks] [c' cs] l l' H _ IH]; simpl; [done|].
  f_equal; [|done]. simpl in H.
  destruct (convert parse_float na_values (upload_dtype c) toks); simpl in H; congruence.
Qed.

Lemma replace_shape (df : DataFrame F) :
  index (replace df) = index df /\ columns (replace df) = columns df.
Proof.
  split; [done|]. unfold columns, replace. simpl.
  rewrite <- list_fmap_compose. by apply list_fmap_ext.
Qed.

Lemma assoc_None {A} c (l : list (string * A)) : assoc c l = None <-> c ∉ l.*1.
Proof.
  induction l as [|[k v] l IH]; simpl.
  - split; [intros _; apply not_elem_of_nil | done].
  - rewrite not_elem_of_cons. destruct (decide (k = c)) as [->|Hne].
    + split; [done | by intros [? _]].
    + rewrite IH. split; [by intros ? | by intros [_ ?]].
Qed.

Lemma assoc_app {A} c (l1 l2 : list (string * A)) :
  assoc c (l1 ++ l2) = match assoc c l1 with Some v => Some v | None => assoc c l2 end.
Proof.
  induction l1 as [|[k v] l1 IH]; simpl; [done|]. by destruct (decide (k = c)).
Qed.

Lemma add_if_missing_spec (df : DataFrame F) (c : string) :
  let df' := add_if_missing df c in
  index df' = index df /\
  c ∈ columns df' /\
  (forall c', c' ∈ columns df -> c' ∈ columns df' /\ column df' c' = column df c') /\
  (c ∉ columns df -> column df' c = Some (replicate (index df) NaN)) /\
  (forall c', c' ∈ columns df' -> c' ∈ columns df \/ c' = c).
Proof.
  unfold add_if_missing. destruct (decide (c ∈ columns df)) as [Hin|Hin]; simpl.
  - repeat split; auto. done.
  - unfold columns, column, add_nan_column. simpl. rewrite fmap_app. simpl.
    repeat split.
    + apply elem_of_app. right. by left.
    + apply elem_of_app. by left.
    + rewrite assoc_app. destruct (assoc c' (series df)) eqn:E; [done|].
      apply assoc_None in E. by destruct E.
    + intros _. rewrite assoc_app.
      apply assoc_None in Hin. rewrite Hin. simpl. by rewrite decide_True.
    + intros c' H. apply elem_of_app in H as [H|H]; [by left|].
      right. by apply list_elem_of_singleton in H.
Qed.

(** After the loop the three identifier columns are present; the ones
    the frame lacked are NaN in every row, the columns it had are as
    they were, and nothing else is added. *)
Lemma add_missing_hgvs_spec (df : DataFrame F) :
  let df' := add_missing_hgvs df in
  index df' = index df /\
  (forall c, c ∈ HGVSColumns.options -> c ∈ columns df') /\
  (forall c, c ∈ columns df -> c ∈ columns df' /\ column df' c = column df c) /\
  (forall c, c ∈ HGVSColumns.options -> c ∉ columns df ->
             column df' c = Some (replicate (index df) NaN)) /\
  (forall c, c ∈ columns df' -> c ∈ columns df \/ c ∈ HGVSColumns.options).
Proof.
  unfold add_missing_hgvs, HGVSColumns.options. simpl.
  set (d1 := add_if_missing df HGVSColumns.NUCLEOTIDE).
  set (d2 := add_if_missing d1 HGVSColumns.TRANSCRIPT).
  set (d3 := add_if_missing d2 HGVSColumns.PROTEIN).
  destruct (add_if_missing_spec df HGVSColumns.NUCLEOTIDE) as (I1 & P1 & K1 & N1 & O1).
  destruct (add_if_missing_spec d1 HGVSColumns.TRANSCRIPT) as (I2 & P2 & K2 & N2 & O2).
  destruct (add_if_missing_spec d2 HGVSColumns.PROTEIN) as (I3 & P3 & K3 & N3 & O3).
  fold d1 in I1, P1, K1, N1, O1. fold d2 in I2, P2, K2, N2, O2.
  fold d3 in I3, P3, K3, N3, O3.
  assert (K12 : forall c, c ∈ columns d1 -> c ∈ columns d3 /\ column d3 c = column d1 c).
  { intros c H. destruct (K2 c H) as [H2 E2]. destruct (K3 c H2) as [H3 E3].
    split; [done | congruence]. }
  split; [congruence|]. split; [|split; [|split]].
  - intros c Hc. rewrite !elem_of_cons in Hc.
    destruct Hc as [->|[->|[->|Hc]]].
    + by apply K12.
    + by apply K3.
    + done.
    + by apply elem_of_nil in Hc.
  - intros c H. destruct (K1 c H) as [H1 E1]. destruct (K12 c H1) as [H3 E3].
    split; [done | congruence].
  - intros c Hc Hnot. rewrite !elem_of_cons in Hc.
    destruct Hc as [->|[->|[->|Hc]]].
    + destruct (K12 _ P1) as [_ ->]. by apply N1.
    + destruct (K3 _ P2) as [_ ->]. rewrite <- I1. apply N2.
      intros H. apply O1 in H as [H|H]; [done | discriminate].
    + rewrite <- I1, <- I2. apply N3.
      intros H. apply O2 in H as [H|H]; [|discriminate].
      apply O1 in H as [H|H]; [done | discriminate].
    + by apply elem_of_nil in Hc.
  - intros c H. apply O3 in H as [H| ->]; [|right; repeat constructor].
    apply O2 in H as [H| ->]; [|right; repeat constructor].
    apply O1 in H as [H| ->]; [by left | right; repeat constructor].
Qed.

End LoaderFacts.

Section LoaderClaims.
Context {F : Type}.
Variable parse_float : string -> option F.
Variable na_values : list string.

(** C6, as the code has it. The router declares one column as float,
    the column named [scores]. A token of that column that is neither a
    null token of the parser nor a number makes the load raise
    [ValueError]: the token is never taken in as text or as zero. *)
Theorem load_table_rejects_malformed_score (raw : RawTable) (toks : list string) (t : string) :
  ("scores", toks) ∈ fields raw ->
  t ∈ toks ->
  bad_token parse_float na_values t ->
  load_table parse_float na_values raw = Raise ValueError.
Proof.
  intros Hin Ht Hb. unfold load_table.
  by rewrite (read_csv_bad_token _ _ _ _ _ Hin Ht Hb).
Qed.

(** C7, as the code has it. A file that the reader has split, that has
    at least one column and whose [scores] column holds no malformed
    token, loads without error whichever identifier columns it lacks:
    the loaded frame has all three identifier columns, and each one
    that the input did not have is NaN in every row. *)
Theorem load_table_synthesises_identifier_columns
    (n : nat) (fs : list (string * list string)) :
  fs <> [] ->
  (forall toks t, ("scores", toks) ∈ fs -> t ∈ toks ->
                  ~ bad_token parse_float na_values t) ->
  exists df,
    load_table parse_float na_values (Table n fs) = Ok df /\
    index df = n /\
    (forall c, c ∈ HGVSColumns.options -> c ∈ columns df) /\
    (forall c, c ∈ HGVSColumns.options -> c ∉ fs.*1 ->
               column df c = Some (replicate n NaN)).
Proof.
  intros Hfs Hgood. unfold load_table.
  destruct (read_csv parse_float na_values upload_dtype (Table n fs)) as [df0|e] eqn:Er.
  - simpl. eexists. split; [reflexivity|].
    apply read_csv_shape in Er as [Hi Hc]. simpl in Hi, Hc.
    destruct (replace_shape df0) as [Hi' Hc'].
    destruct (add_missing_hgvs_spec (replace df0)) as (I & P & _ & N & _).
    split; [congruence|]. split; [exact P|].
    intros c Hc0 Hnot. rewrite N; [congruence | done |].
    by rewrite Hc', Hc.
  - exfalso. apply read_csv_table_raise in Er as (_ & toks & t & Hin & Ht & Hb); [|done].
    by apply (Hgood toks t).
Qed.

End LoaderClaims.

Lemma load_table_rejects_malformed_score_witness :
  load_table parse_decimal sample_na_values (file malformed_scores_file)
  = Raise ValueError.
Proof.
  apply (load_table_rejects_malformed_score parse_decimal sample_na_values
           (file malformed_scores_file) ["abc"] "abc").
  - simpl. right. by left.
  - by left.
  - split; reflexivity.
Defined.

Lemma load_table_synthesises_identifier_columns_witness :
  exists df,
    load_table parse_decimal sample_na_values scores_without_identifiers = Ok df /\
    column df "hgvs_pro" = Some [NaN; NaN].
Proof.
  destruct (load_table_synthesises_identifier_columns parse_decimal sample_na_values
              2 [("score", ["1"; "NA"])]) as (df & Hload & _ & _ & Hnan).
  - discriminate.
  - intros toks t Hin. apply list_elem_of_singleton in Hin. discriminate.
  - exists df. split; [exact Hload|].
    apply (Hnan "hgvs_pro").
    + unfold HGVSColumns.options. repeat constructor.
    + simpl. intros H. apply list_elem_of_singleton in H. discriminate.
Defined.

(** C6 as stated fails: the column [score] is not an identifier column,
    its token [abc] is neither a null token nor a number, and the load
    returns a frame that holds the token as text. *)
Lemma load_table_keeps_text_token :
  (("score", ["abc"]) ∈ fields score_with_text) /\
  ("score" ∉ HGVSColumns.options) /\
  is_null "abc" = false /\
  bad_token parse_decimal sample_na_values "abc" /\
  load_table parse_decimal sample_na_values score_with_text
  = Ok {| index := 1;
          series := [("score", [Str "abc"]); ("hgvs_nt", [NaN]);
                     ("hgvs_splice", [NaN]); ("hgvs_pro", [NaN])] |}.
Proof.
  split; [by left|]. split.
  { unfold HGVSColumns.options. rewrite !not_elem_of_cons.
    repeat split; try discriminate. apply not_elem_of_nil. }
  split; [reflexivity|]. split; [split; reflexivity|]. reflexivity.
Qed.

(** C7 as stated fails: this table lacks all three identifier columns,
    and its load raises, because the one token of its [scores] column is
    not a number. *)
Lemma load_table_without_identifiers_raises :
  (forall c, c ∈ HGVSColumns.options -> c ∉ (fields malformed_scores_only).*1) /\
  load_table parse_decimal sample_na_values malformed_scores_only = Raise ValueError.
Proof.
  split; [|reflexivity].
  intros c Hc Hin. simpl in Hin. apply list_elem_of_singleton in Hin. subst c.
  unfold HGVSColumns.options in Hc. rewrite !elem_of_cons in Hc.
  destruct Hc as [?|[?|[?|Hc]]]; try discriminate. by apply elem_of_nil in Hc.
Qed.

(** ** The exporter *)
Section ExporterFacts.
Context {V : Type}.
Variable py_str : V -> string.

Lemma column_value_fixed (variant : Variant V) dtype :
  column_value py_str variant dtype "accession" = Ok (v_urn variant) /\
  column_value py_str variant dtype "hgvs_nt" = Ok (str_optional (hgvs_nt variant)) /\
  column_value py_str variant dtype "hgvs_pro" = Ok (str_optional (hgvs_pro variant)) /\
  column_value py_str variant dtype "hgvs_splice"
    = Ok (str_optional (hgvs_splice variant)).
Proof. repeat split. Qed.

Lemma column_value_data (variant : Variant V) dtype c :
  c ∉ fixed_columns ->
  column_value py_str variant dtype c =
  match data variant !! dtype ≫= (fun category => category !! c) with
  | Some value => Ok (py_str value)
  | None => Raise KeyError
  end.
Proof.
  unfold fixed_columns. rewrite !not_elem_of_cons. intros (H1 & H2 & H3 & H4 & _).
  unfold column_value. rewrite !decide_False by done.
  destruct (data variant !! dtype) as [category|]; simpl; [|done].
  by destruct (category !! c).
Qed.

(** [column_value] raises only [KeyError], and only on a data column
    that the variant's dictionary lacks. *)
Lemma column_value_raise (variant : Variant V) dtype c e :
  column_value py_str variant dtype c = Raise e <->
  e = KeyError /\ (c ∉ fixed_columns) /\
  data variant !! dtype ≫= (fun category => category !! c) = None.
Proof.
  destruct (decide (c ∈ fixed_columns)) as [Hin|Hnot].
  - split; [|by intros (_ & ? & _)].
    destruct (column_value_fixed variant dtype) as (A1 & A2 & A3 & A4).
    unfold fixed_columns in Hin. rewrite !elem_of_cons in Hin.
    destruct Hin as [->|[->|[->|[->|Hin]]]];
      [rewrite A2|rewrite A3|rewrite A4|rewrite A1|]; try discriminate.
    by apply elem_of_nil in Hin.
  - rewrite column_value_data by done.
    destruct (data variant !! dtype ≫= _) as [value|] eqn:E.
    + split; [discriminate | intros (_ & _ & ?); discriminate].
    + split; [by intros [= <-] | by intros (-> & _)].
Qed.

Lemma row_loop_raise variant dtype na_rep columns e :
  fold_left (row_step py_str variant dtype na_rep) columns (Raise e) = Raise e.
Proof. induction columns; simpl; auto. Qed.

Lemma row_loop_ok variant dtype na_rep columns acc row :
  fold_left (row_step py_str variant dtype na_rep) columns (Ok acc) = Ok row ->
  (forall c, c ∉ columns -> row !! c = acc !! c) /\
  (forall c, c ∈ columns ->
     exists value, column_value py_str variant dtype c = Ok value /\
                   row !! c = Some (if is_null value then na_rep else value)).
Proof.
  revert acc. induction columns as [|c0 cs IH]; intros acc; simpl.
  - intros [= <-]. split; [done|]. intros c H. by apply elem_of_nil in H.
  - destruct (column_value py_str variant dtype c0) as [v0|e0] eqn:E0; simpl;
      [|by rewrite row_loop_raise].
    intros H. apply IH in H as [Hout Hin]. split.
    + intros c Hc. apply not_elem_of_cons in Hc as [Hne Hc].
      rewrite (Hout c Hc). by rewrite lookup_insert_ne.
    + intros c Hc. destruct (decide (c ∈ cs)) as [Hcs|Hcs]; [by apply Hin|].
      apply elem_of_cons in Hc as [->|Hc]; [|done].
      exists v0. split; [done|]. rewrite (Hout c0 Hcs). by rewrite lookup_insert_eq.
Qed.

Lemma row_loop_raise_iff variant dtype na_rep columns acc :
  (exists e, fold_left (row_step py_str variant dtype na_rep) columns (Ok acc) = Raise e) <->
  exists c e, c ∈ columns /\ column_value py_str variant dtype c = Raise e.
Proof.
  revert acc. induction columns as [|c0 cs IH]; intros acc; simpl.
  - split; [by intros [? ?]|]. intros (c & ? & H & _). by apply elem_of_nil in H.
  - destruct (column_value py_str variant dtype c0) as [v0|e0] eqn:E0; simpl.
    + rewrite IH. split.
      * intros (c & e & Hc & He). exists c, e. split; [by right | done].
      * intros (c & e & Hc & He). apply elem_of_cons in Hc as [->|Hc]; [congruence|].
        eauto.
    + rewrite row_loop_raise. split; [|eauto].
      intros _. exists c0, e0. split; [by left | done].
Qed.

Lemma format_row_raise variant columns dtype na_rep e :
  format_row py_str variant columns dtype na_rep = Raise e <->
  e = KeyError /\
  exists c, c ∈ columns /\ (c ∉ fixed_columns) /\
            data variant !! dtype ≫= (fun category => category !! c) = None.
Proof.
  unfold format_row. split.
  - intros H.
    assert (He : e = KeyError).
    { clear -H. revert H. generalize (∅ : gmap string string).
      induction columns as [|c0 cs IH]; intros acc; simpl; [done|].
      destruct (column_value py_str variant dtype c0) as [v0|e0] eqn:E0; simpl.
      - apply IH.
      - rewrite row_loop_raise. intros [= <-].
        by apply column_value_raise in E0 as [-> _]. }
    split; [done|].
    destruct (proj1 (row_loop_raise_iff variant dtype na_rep columns ∅))
      as (c & e' & Hc & Hv); [eauto|].
    apply column_value_raise in Hv as (_ & Hf & Hd). eauto.
  - intros (-> & c & Hc & Hf & Hd).
    destruct (proj2 (row_loop_raise_iff variant dtype na_rep columns ∅)) as [e He].
    { exists c, KeyError. split; [done|]. by apply column_value_raise. }
    rewrite He. f_equal. clear -He. revert He. generalize (∅ : gmap string string).
    induction columns as [|c0 cs IH]; intros acc; simpl; [done|].
    destruct (column_value py_str variant dtype c0) as [v0|e0] eqn:E0; simpl.
    + apply IH.
    + rewrite row_loop_raise. intros [= <-].
      by apply column_value_raise in E0 as [-> _].
Qed.

(** C5, as the code has it. When every requested data column is in every
    variant's dictionary of the selected category, the exporter returns
    one row per variant, in input order, whose keys are the requested
    columns: [accession] is read from the urn, the three identifier
    columns from the identifier triple ([None] printing as its name), any
    other column from the selected dictionary through [str], and in every
    column a value that [is_null] classifies as missing is replaced by the
    sentinel. When some variant's dictionary lacks a requested data
    column, the exporter raises [KeyError] and returns no rows. *)
Theorem format_csv_rows_spec (variants : list (Variant V)) (columns : list string)
    (dtype na_rep : string) :
  match format_csv_rows py_str variants columns dtype na_rep with
  | Ok rows =>
      length rows = length variants /\
      forall i variant, variants !! i = Some variant ->
        exists row, rows !! i = Some row /\
          (forall c, c ∉ columns -> row !! c = None) /\
          (forall c, c ∈ columns ->
             exists value,
               row !! c = Some (if is_null value then na_rep else value) /\
               (c = "accession" -> value = v_urn variant) /\
               (c = "hgvs_nt" -> value = str_optional (hgvs_nt variant)) /\
               (c = "hgvs_pro" -> value = str_optional (hgvs_pro variant)) /\
               (c = "hgvs_splice" -> value = str_optional (hgvs_splice variant)) /\
               (c ∉ fixed_columns ->
                  exists category x,
                    data variant !! dtype = Some category /\
                    category !! c = Some x /\ value = py_str x))
  | Raise e =>
      e = KeyError /\
      exists variant c,
        variant ∈ variants /\ c ∈ columns /\ (c ∉ fixed_columns) /\
        data variant !! dtype ≫= (fun category => category !! c) = None
  end.
Proof.
  unfold format_csv_rows.
  destruct (rmap _ variants) as [rows|e] eqn:E.
  - apply rmap_ok in E. split; [symmetry; by eapply Forall2_length|].
    intros i variant Hi.
    destruct (Forall2_lookup_l _ _ _ _ _ E Hi) as (row & Hrow & Hfmt).
    exists row. split; [done|].
    apply row_loop_ok in Hfmt as [Hout Hin].
    split; [intros c Hc; by rewrite (Hout c Hc), lookup_empty|].
    intros c Hc. destruct (Hin c Hc) as (value & Hval & Hlook).
    exists value. split; [done|].
    destruct (column_value_fixed variant dtype) as (A1 & A2 & A3 & A4).
    repeat split; try (intros ->; congruence).
    intros Hfix. rewrite column_value_data in Hval by done.
    destruct (data variant !! dtype) as [category|]; simpl in Hval; [|done].
    destruct (category !! c) as [x|] eqn:Ex; [|done].
    exists category, x. repeat split; congruence.
  - apply rmap_raise_inv in E as (variant & Hv & Hfmt).
    apply format_row_raise in Hfmt as (-> & c & Hc & Hfix & Hd).
    split; [done|]. eauto 6.
Qed.

End ExporterFacts.

Example format_csv_rows_normalises :
  format_csv_rows str_of_int
    [make_variant "urn:mavedb:00000001-a-1#1" 1 (sample_variant_data "c.1A>G")]
    ["accession"; "hgvs_nt"; "hgvs_pro"; "score"] "score_data" "NA"
  = Ok [ {[ "accession" := "urn:mavedb:00000001-a-1#1"; "hgvs_nt" := "c.1A>G";
            "hgvs_pro" := "NA"; "score" := "1" ]} ].
Proof. by vm_compute. Qed.

(** C5 as stated fails: the column [score] is absent from the variant's
    [score_data], and the exporter raises instead of returning a row
    with the sentinel in that column. *)
Lemma format_csv_rows_absent_column_raises :
  data variant_without_score !! "score_data" = Some ∅ /\
  format_csv_rows str_of_int [variant_without_score]
    ["accession"; "score"] "score_data" "NA" = Raise KeyError /\
  format_csv_rows str_of_int [variant_without_score]
    ["accession"; "score"] "score_data" "NA"
  <> Ok [ {[ "accession" := "urn:mavedb:00000001-a-1#1"; "score" := "NA" ]} ].
Proof. split; [done|]. split; [by vm_compute|]. by vm_compute. Qed.

(** ** The upload transaction *)
Lemma public_with_urn_true u (r : Scoreset) :
  public_with_urn u r = true <-> urn r = u /\ private r = false.
Proof.
  unfold public_with_urn. rewrite andb_true_iff, bool_decide_eq_true, negb_true_iff.
  done.
Qed.

Section UploadFacts.
Context {F V : Type}.
Variable parse_float : string -> option F.
Variable na_values : list string.
Variable create_variants_data :
  DataFrame F -> option (DataFrame F) -> result (list (VariantData V)).
Variable insert_ok : Store V -> list (Variant V) -> bool.
Variable commit_ok : Store V -> bool.

Lemma one_or_none_Some {A} (l : list A) (x : A) :
  one_or_none l = Ok (Some x) -> l = [x].
Proof. destruct l as [|y [|z l]]; simpl; congruence. Qed.

Lemma find_write_back (item : Scoreset) (table : list Scoreset) :
  (exists r, r ∈ table /\ id r = id item) ->
  List.find (fun r => bool_decide (id r = id item)) (write_back item table) = Some item.
Proof.
  intros (r & Hin & Hid). induction table as [|x table IH]; [by apply elem_of_nil in Hin|].
  unfold write_back. rewrite fmap_cons. cbn [List.find].
  destruct (decide (id x = id item)) as [Hx|Hx].
  - by rewrite bool_decide_eq_true_2.
  - rewrite bool_decide_eq_false_2 by done. apply IH.
    apply elem_of_cons in Hin as [->|Hin]; [congruence | done].
Qed.

Lemma write_back_twice (a b : Scoreset) (table : list Scoreset) :
  id b = id a -> write_back b (write_back a table) = write_back b table.
Proof.
  intros Hid. unfold write_back. rewrite <- list_fmap_compose.
  apply list_fmap_ext. intros _ r _. simpl.
  destruct (decide (id r = id a)) as [Hr|Hr].
  - by rewrite !decide_True by congruence.
  - done.
Qed.

(** The handler written out as the sequence of its tests, with the
    session that each exit leaves. *)
Lemma upload_unfold refresh_ok u counts_file scores_file user (s : Session V) :
  upload_scoreset_variant_data parse_float na_values create_variants_data
    insert_ok commit_ok refresh_ok u counts_file scores_file user s =
  match one_or_none (List.filter (public_with_urn u) (scoresets (txn s))) with
  | Raise e => (Raise e, s)
  | Ok None => (Raise AttributeError, s)
  | Ok (Some item) =>
      if negb (PyStr.truthy (urn item)) then (Ok None, s) else
      match load_table parse_float na_values (file scores_file) with
      | Raise e => (Raise e, s)
      | Ok scores_df =>
          match
            match counts_file with
            | Some counts_file =>
                if PyStr.truthy (filename counts_file)
                then rbind (load_table parse_float na_values (file counts_file))
                       (fun counts_df => Ok (Some counts_df, data_columns counts_df))
                else Ok (None, [])
            | None => Ok (None, [])
            end
          with
          | Raise e => (Raise e, s)
          | Ok (counts_df, count_cols) =>
              match create_variants_data scores_df counts_df with
              | Raise e => (Raise e, s)
              | Ok variants_data =>
                  let new :=
                    (fun p : string * VariantData V => make_variant p.1 (id item) p.2)
                      <$> zip ((fun i => format_urn (urn item) (num_variants item + (i + 1)))
                                 <$> range (Z.of_nat (length variants_data)))
                              variants_data in
                  let item' :=
                    set_modified_by user
                      (set_dataset_columns
                         {| count_columns := count_cols;
                            score_columns := data_columns scores_df |}
                         (set_num_variants
                            (num_variants item + Z.of_nat (length variants_data)) item)) in
                  let st' :=
                    {| scoresets := write_back item' (scoresets (txn s));
                       variants := (variants (txn s) ++ new)%list |} in
                  if insert_ok (txn s) new then
                    if commit_ok st' then
                      if refresh_ok st' then
                        match List.find (fun r => bool_decide (id r = id item'))
                                (scoresets st') with
                        | Some r => (Ok (Some r), {| persisted := st'; txn := st' |})
                        | None => (Raise DatabaseError, {| persisted := st'; txn := st' |})
                        end
                      else (Raise DatabaseError, {| persisted := st'; txn := st' |})
                    else (Raise DatabaseError,
                          {| persisted := persisted s; txn := persisted s |})
                  else (Raise DatabaseError, s)
              end
          end
      end
  end.
Proof.
  unfold upload_scoreset_variant_data, query_scoreset, lift.
  unfold bind at 1.
  destruct (one_or_none _) as [[item|]|e0]; [|done|done].
  unfold bind at 1.
  destruct (negb (PyStr.truthy (urn item))); [done|].
  unfold bind at 1.
  destruct (load_table parse_float na_values (file scores_file)) as [scores_df|e1]; [|done].
  unfold bind at 1.
  match goal with |- context [match ?c with Ok _ => _ | Raise _ => _ end] =>
    destruct c as [[counts_df count_cols]|e2] end; [|done].
  unfold bind at 1.
  destruct (create_variants_data scores_df counts_df) as [variants_data|e3]; [|done].
  cbn zeta.
  unfold create_variants, bulk_create_urns, bulk_save_objects, add, variants_of, commit,
    refresh, ret, bind.
  cbn beta iota zeta. cbn [fst snd txn persisted scoresets variants].
  destruct (insert_ok (txn s) _); [|done].
  cbn beta iota zeta. cbn [fst snd txn persisted scoresets variants].
  pose proof (write_back_twice
    (set_num_variants (num_variants item + Z.of_nat (length variants_data)) item)
    (set_modified_by user
       (set_dataset_columns
          {| count_columns := count_cols; score_columns := data_columns scores_df |}
          (set_num_variants (num_variants item + Z.of_nat (length variants_data)) item)))
    (scoresets (txn s)) eq_refl) as Hwb.
  unfold write_back in Hwb |- *. rewrite !Hwb.
  destruct (commit_ok _); [|done].
  cbn beta iota zeta. cbn [fst snd txn persisted scoresets variants].
  destruct (refresh_ok _); [|done].
  by destruct (List.find _ _).
Qed.

(** What a call of the handler does, by outcome. Either it has written
    nothing and the session is as it was; or the commit raised and the
    transaction was rolled back; or the commit went through, and then
    the session holds the row written back and the new variants, the
    call returns the row or raises according to the read after the
    commit, and under any other answer to that read the call does the
    same up to that point. *)
Lemma upload_cases refresh_ok u counts_file scores_file user (s : Session V) r s' :
  upload_scoreset_variant_data parse_float na_values create_variants_data
    insert_ok commit_ok refresh_ok u counts_file scores_file user s = (r, s') ->
  (s' = s /\ forall item', r <> Ok (Some item')) \/
  (r = Raise DatabaseError /\ s' = {| persisted := persisted s; txn := persisted s |}) \/
  exists item scores_df counts_df count_cols variants_data item',
    List.filter (public_with_urn u) (scoresets (txn s)) = [item] /\
    load_table parse_float na_values (file scores_file) = Ok scores_df /\
    match counts_file with
    | Some f =>
        if PyStr.truthy (filename f)
        then exists df, load_table parse_float na_values (file f) = Ok df /\
                        counts_df = Some df /\ count_cols = data_columns df
        else counts_df = None /\ count_cols = []
    | None => counts_df = None /\ count_cols = []
    end /\
    create_variants_data scores_df counts_df = Ok variants_data /\
    item' =
      set_modified_by user
        (set_dataset_columns
           {| count_columns := count_cols; score_columns := data_columns scores_df |}
           (set_num_variants
              (num_variants item + Z.of_nat (length variants_data)) item)) /\
    persisted s' = txn s' /\
    scoresets (txn s') = write_back item' (scoresets (txn s)) /\
    variants (txn s') =
      (variants (txn s) ++
       ((fun p : string * VariantData V => make_variant p.1 (id item) p.2)
          <$> zip ((fun i => format_urn (urn item) (num_variants item + (i + 1)))
                     <$> range (Z.of_nat (length variants_data)))
                  variants_data))%list /\
    r = (if refresh_ok (txn s') then Ok (Some item') else Raise DatabaseError) /\
    forall ro,
      upload_scoreset_variant_data parse_float na_values create_variants_data
        insert_ok commit_ok ro u counts_file scores_file user s
      = (if ro (txn s') then Ok (Some item') else Raise DatabaseError, s').
Proof.
  rewrite upload_unfold.
  destruct (one_or_none _) as [[item|]|e0] eqn:Eq;
    [|intros [= <- <-]; by left|intros [= <- <-]; by left].
  destruct (negb (PyStr.truthy (urn item))) eqn:Eu; [intros [= <- <-]; by left|].
  destruct (load_table parse_float na_values (file scores_file)) as [scores_df|e1] eqn:Es;
    [|intros [= <- <-]; by left].
  match goal with |- context [match ?c with Ok _ => _ | Raise _ => _ end] =>
    destruct c as [[counts_df count_cols]|e2] eqn:Ec end; [|intros [= <- <-]; by left].
  destruct (create_variants_data scores_df counts_df) as [variants_data|e3] eqn:Em;
    [|intros [= <- <-]; by left].
  cbn zeta.
  destruct (insert_ok (txn s) _) eqn:Ei; [|intros [= <- <-]; by left].
  destruct (commit_ok _) eqn:Eco; [|intros [= <- <-]; right; by left].
  apply one_or_none_Some in Eq.
  assert (Hin : item ∈ scoresets (txn s)).
  { assert (H : In item (List.filter (public_with_urn u) (scoresets (txn s))))
      by (rewrite Eq; by left).
    apply filter_In in H as [H _]. by apply list_elem_of_In. }
  cbn [scoresets]. rewrite find_write_back by (exists item; by split).
  match goal with |- context [refresh_ok ?st] => set (st' := st) end.
  match goal with |- context [Ok (Some ?it)] => set (item' := it) end.
  intros Hr. right. right.
  exists item, scores_df, counts_df, count_cols, variants_data, item'.
  split; [done|]. split; [done|]. split.
  { destruct counts_file as [f|]; [|by injection Ec as <- <-].
    destruct (PyStr.truthy (filename f)); [|by injection Ec as <- <-].
    destruct (load_table parse_float na_values (file f)) as [df|]; [|discriminate].
    simpl in Ec. injection Ec as <- <-. eauto. }
  split; [done|]. split; [reflexivity|].
  assert (Hs' : s' = {| persisted := st'; txn := st' |} /\
                r = if refresh_ok st' then Ok (Some item') else Raise DatabaseError).
  { destruct (refresh_ok st'); injection Hr as <- <-; split; reflexivity. }
  destruct Hs' as [-> Hr']. cbn [persisted txn].
  split; [done|]. split; [done|]. split; [done|]. split; [exact Hr'|].
  intros ro. rewrite upload_unfold, Eq. cbn [one_or_none]. rewrite Eu, Es, Ec, Em.
  cbn zeta. rewrite Ei, Eco. cbn [scoresets].
  rewrite find_write_back by (exists item; by split).
  fold st' item'. by destruct (ro st').
Qed.

(** Everything a returned item says about the call that returned it. *)
Lemma upload_ok_inv refresh_ok u counts_file scores_file user (s : Session V) item' s' :
  upload_scoreset_variant_data parse_float na_values create_variants_data
    insert_ok commit_ok refresh_ok u counts_file scores_file user s = (Ok (Some item'), s') ->
  exists item scores_df counts_df count_cols variants_data,
    List.filter (public_with_urn u) (scoresets (txn s)) = [item] /\
    load_table parse_float na_values (file scores_file) = Ok scores_df /\
    match counts_file with
    | Some f =>
        if PyStr.truthy (filename f)
        then exists df, load_table parse_float na_values (file f) = Ok df /\
                        counts_df = Some df /\ count_cols = data_columns df
        else counts_df = None /\ count_cols = []
    | None => counts_df = None /\ count_cols = []
    end /\
    create_variants_data scores_df counts_df = Ok variants_data /\
    item' =
      set_modified_by user
        (set_dataset_columns
           {| count_columns := count_cols; score_columns := data_columns scores_df |}
           (set_num_variants
              (num_variants item + Z.of_nat (length variants_data)) item)) /\
    persisted s' = txn s' /\
    scoresets (txn s') = write_back item' (scoresets (txn s)) /\
    variants (txn s') =
      (variants (txn s) ++
       ((fun p : string * VariantData V => make_variant p.1 (id item) p.2)
          <$> zip ((fun i => format_urn (urn item) (num_variants item + (i + 1)))
                     <$> range (Z.of_nat (length variants_data)))
                  variants_data))%list.
Proof.
  intros H. apply upload_cases in H as [[_ H]|[[H _]|H]]; [by destruct (H item') | done |].
  destruct H as (item & scores_df & counts_df & count_cols & vd & item0
                 & Hq & Hs & Hc & Hm & Hi & Hp & Ht & Hv & Hr & _).
  assert (item0 = item') as ->.
  { destruct (refresh_ok (txn s')); congruence. }
  exists item, scores_df, counts_df, count_cols, vd. done.
Qed.

(** C3, as the code has it. If a call of the upload handler raises,
    then either the persisted tables are the ones from before the call,
    every scoreset row with its counter and its column manifest and
    every variant, or the exception is the one of the read that follows
    the commit, and then the session is exactly the one that the same
    call leaves when that read succeeds: all of the upload is persisted.
    Part of an upload is never persisted. *)
Theorem upload_failure_persists_all_or_nothing
    refresh_ok u counts_file scores_file user (s : Session V) e s' :
  upload_scoreset_variant_data parse_float na_values create_variants_data
    insert_ok commit_ok refresh_ok u counts_file scores_file user s = (Raise e, s') ->
  persisted s' = persisted s \/
  (e = DatabaseError /\ refresh_ok (txn s') = false /\
   exists item',
     upload_scoreset_variant_data parse_float na_values create_variants_data
       insert_ok commit_ok (fun _ => true) u counts_file scores_file user s
     = (Ok (Some item'), s')).
Proof.
  intros H. apply upload_cases in H as [[-> _]|[[_ ->]|H]]; [by left | by left |].
  destruct H as (item & scores_df & counts_df & count_cols & vd & item'
                 & _ & _ & _ & _ & _ & _ & _ & _ & Hr & Hro).
  right. destruct (refresh_ok (txn s')); [discriminate|].
  injection Hr as ->. split; [done|]. split; [done|].
  exists item'. exact (Hro (fun _ => true)).
Qed.

(** C1, what the code does. After a successful upload every variant that
    was persisted before the call is still persisted: the handler logs
    that it deletes the existing variants and then only inserts the new
    ones. *)
Theorem upload_keeps_previous_variants
    refresh_ok u counts_file scores_file user p item s' :
  upload_scoreset_variant_data parse_float na_values create_variants_data
    insert_ok commit_ok refresh_ok u counts_file scores_file user (fresh p)
    = (Ok (Some item), s') ->
  forall v, v ∈ variants p -> v ∈ variants (persisted s').
Proof.
  intros H v Hv. apply upload_ok_inv in H
    as (item0 & scores_df & counts_df & count_cols & vd & _ & _ & _ & _ & _ & Hp & _ & Hnew).
  rewrite Hp, Hnew. apply elem_of_app. by left.
Qed.

(** C9. When no scoreset that is not private has the given urn, the
    handler raises [AttributeError] whatever the uploaded files hold, and
    the session, persisted tables included, is as it was. *)
Theorem upload_unknown_urn_raises refresh_ok u counts_file scores_file user (s : Session V) :
  List.filter (public_with_urn u) (scoresets (txn s)) = [] ->
  upload_scoreset_variant_data parse_float na_values create_variants_data
    insert_ok commit_ok refresh_ok u counts_file scores_file user s
  = (Raise AttributeError, s).
Proof.
  intros H. unfold upload_scoreset_variant_data, bind, query_scoreset.
  by rewrite H.
Qed.




End UploadFacts.

Lemma upload_failure_persists_all_or_nothing_witness :
  exists e s',
    upload_scoreset_variant_data parse_decimal sample_na_values sample_merge
      (fun _ _ => true) (fun _ => false) (fun _ => true)
      "urn:mavedb:00000001-a-1" None sample_scores_file 5%Z (fresh sample_store)
    = (Raise e, s') /\
    (persisted s' = sample_store \/
     (e = DatabaseError /\ (fun _ : Store Z => true) (txn s') = false /\
      exists item',
        upload_scoreset_variant_data parse_decimal sample_na_values sample_merge
          (fun _ _ => true) (fun _ => false) (fun _ => true)
          "urn:mavedb:00000001-a-1" None sample_scores_file 5%Z (fresh sample_store)
        = (Ok (Some item'), s'))).
Proof.
  eexists. eexists. split; [vm_compute; reflexivity|].
  exact (upload_failure_persists_all_or_nothing
           parse_decimal sample_na_values sample_merge
           (fun _ _ => true) (fun _ => false) (fun _ => true)
           "urn:mavedb:00000001-a-1" None sample_scores_file 5%Z
           (fresh sample_store) _ _ ltac:(vm_compute; reflexivity)).
Defined.

(** C3 as stated fails. The insert and the commit succeed and the read
    after the commit fails: the handler raises, and the persisted
    counter, column manifest and variants are no longer the ones from
    before the call. *)
Lemma upload_refresh_failure_is_persisted :
  (upload_scoreset_variant_data parse_decimal sample_na_values sample_merge
     (fun _ _ => true) (fun _ => true) (fun _ => false)
     "urn:mavedb:00000001-a-1" None scores_file_with_se 5%Z (fresh sample_store)).1
  = Raise DatabaseError /\
  num_variants <$> scoresets sample_store = [2%Z] /\
  num_variants <$> scoresets (persisted
    (upload_scoreset_variant_data parse_decimal sample_na_values sample_merge
       (fun _ _ => true) (fun _ => true) (fun _ => false)
       "urn:mavedb:00000001-a-1" None scores_file_with_se 5%Z (fresh sample_store)).2)
  = [3%Z] /\
  (score_columns ∘ dataset_columns) <$> scoresets sample_store = [["score"]] /\
  (length ∘ score_columns ∘ dataset_columns) <$> scoresets (persisted
    (upload_scoreset_variant_data parse_decimal sample_na_values sample_merge
       (fun _ _ => true) (fun _ => true) (fun _ => false)
       "urn:mavedb:00000001-a-1" None scores_file_with_se 5%Z (fresh sample_store)).2)
  = [2%nat] /\
  length (variants sample_store) = 2%nat /\
  length (variants (persisted
    (upload_scoreset_variant_data parse_decimal sample_na_values sample_merge
       (fun _ _ => true) (fun _ => true) (fun _ => false)
       "urn:mavedb:00000001-a-1" None scores_file_with_se 5%Z (fresh sample_store)).2))
  = 3%nat.
Proof. vm_compute. repeat split; reflexivity. Qed.

Lemma upload_keeps_previous_variants_witness :
  make_variant "urn:mavedb:00000001-a-1#1" 1 (sample_variant_data "c.1A>G")
  ∈ variants (persisted
      (upload_scoreset_variant_data parse_decimal sample_na_values sample_merge
         (fun _ _ => true) (fun _ => true) (fun _ => true)
         "urn:mavedb:00000001-a-1" None sample_scores_file 5%Z (fresh sample_store)).2).
Proof.
  eapply (upload_keeps_previous_variants
            parse_decimal sample_na_values sample_merge
            (fun _ _ => true) (fun _ => true) (fun _ => true)
            "urn:mavedb:00000001-a-1" None sample_scores_file 5%Z sample_store).
  - vm_compute. reflexivity.
  - by left.
Defined.

Lemma upload_unknown_urn_raises_witness :
  upload_scoreset_variant_data parse_decimal sample_na_values sample_merge
    (fun _ _ => true) (fun _ => true) (fun _ => true)
    "urn:mavedb:00000009-a-1" None sample_scores_file 5%Z (fresh sample_store)
  = (Raise AttributeError, fresh sample_store).
Proof.
  apply (upload_unknown_urn_raises parse_decimal sample_na_values sample_merge
           (fun _ _ => true) (fun _ => true) (fun _ => true)).
  reflexivity.
Defined.


Example upload_appends_to_previous_variants :
  v_urn <$> variants (persisted
    (upload_scoreset_variant_data parse_decimal sample_na_values sample_merge
       (fun _ _ => true) (fun _ => true) (fun _ => true)
       "urn:mavedb:00000001-a-1" None sample_scores_file 5%Z (fresh sample_store)).2)
  = ["urn:mavedb:00000001-a-1#1"; "urn:mavedb:00000001-a-1#2";
     "urn:mavedb:00000001-a-1#3"].
Proof. by vm_compute. Qed.

Example uploads_continue_the_counter :
  v_urn <$> variants
    (uploads parse_decimal sample_na_values sample_merge
       (fun _ _ => true) (fun _ => true) (fun _ => true)
       "urn:mavedb:00000001-a-1" [sample_request; sample_request] sample_store).2
  = ["urn:mavedb:00000001-a-1#1"; "urn:mavedb:00000001-a-1#2";
     "urn:mavedb:00000001-a-1#3"; "urn:mavedb:00000001-a-1#4"].
Proof. by vm_compute. Qed.

(** ** Updating a scoreset *)
Module UpdateFacts.
Import Update.

Lemma apply_update_snoc item item_update p :
  apply_update item (item_update ++ [p]) = assign (apply_update item item_update) p.
Proof. unfold apply_update. by rewrite fold_left_app. Qed.

(** After the loop an attribute is either as it was or holds a truthy
    value of the payload. *)
Lemma apply_update_lookup item item_update f :
  apply_update item item_update !! f = item !! f \/
  exists v, (f, v) ∈ item_update /\ truthy v = true /\
            apply_update item item_update !! f = Some v.
Proof.
  induction item_update as [|[g v] l IH] using rev_ind; [by left|].
  rewrite apply_update_snoc. unfold assign. simpl.
  destruct (truthy v) eqn:Ev.
  - destruct (decide (g = f)) as [->|Hne].
    + right. exists v. rewrite lookup_insert_eq.
      split; [apply elem_of_app; right; by left | done].
    + rewrite lookup_insert_ne by done.
      destruct IH as [IH|(w & Hin & Hw & IH)]; [by left|].
      right. exists w. split; [apply elem_of_app; by left | done].
  - destruct IH as [IH|(w & Hin & Hw & IH)]; [by left|].
    right. exists w. split; [apply elem_of_app; by left | done].
Qed.

(** When the loop returns, it has done what [apply_update] says. *)
Lemma update_loop_ok rejects item item_update item' :
  update_loop rejects item item_update = Ok item' ->
  item' = apply_update item item_update.
Proof.
  revert item'. induction item_update as [|[g v] l IH] using rev_ind; intros item'.
  - by intros [= <-].
  - unfold update_loop. rewrite fold_left_app. fold (update_loop rejects item l).
    rewrite apply_update_snoc. simpl. unfold update_step at 1, assign. simpl.
    destruct (update_loop rejects item l) as [item0|e]; simpl; [|done].
    rewrite (IH item0 eq_refl).
    destruct (truthy v); [|by intros [= <-]].
    destruct (rejects g v); [done | by intros [= <-]].
Qed.

(** The loop raises only at a truthy value that the class refuses. *)
Lemma update_loop_raise rejects item item_update e :
  update_loop rejects item item_update = Raise e ->
  exists f v, (f, v) ∈ item_update /\ truthy v = true /\ rejects f v = Some e.
Proof.
  induction item_update as [|[g v] l IH] using rev_ind; [done|].
  unfold update_loop. rewrite fold_left_app. fold (update_loop rejects item l).
  simpl. unfold update_step at 1. simpl.
  destruct (update_loop rejects item l) as [item0|e0]; simpl.
  - destruct (truthy v) eqn:Ev; [|done].
    destruct (rejects g v) as [e1|] eqn:Er; [|done].
    intros [= <-]. exists g, v. split; [apply elem_of_app; right; by left | done].
  - intros [= <-]. destruct IH as (f & w & Hin & Hw & Hr); [done|].
    exists f, w. split; [apply elem_of_app; by left | done].
Qed.

Lemma update_loop_stays_raised rejects item_update e :
  fold_left (update_step rejects) item_update (Raise e) = Raise e.
Proof. induction item_update as [|p l IH]; [done | exact IH]. Qed.

(** The loop raises as soon as the class refuses a truthy value. *)
Lemma update_loop_refused rejects item item_update f v e :
  (f, v) ∈ item_update -> truthy v = true -> rejects f v = Some e ->
  exists e', update_loop rejects item item_update = Raise e'.
Proof.
  intros Hin Hv Hr. unfold update_loop.
  generalize (Ok item : result (gmap string pyval)).
  induction item_update as [|p l IH]; intros acc; [by apply elem_of_nil in Hin|].
  apply elem_of_cons in Hin as [<-|Hin]; [|by apply IH].
  simpl. destruct acc as [item0|e0]; simpl.
  - rewrite Hv, Hr. exists e. apply update_loop_stays_raised.
  - exists e0. apply update_loop_stays_raised.
Qed.

(** C10. Whatever an update does, return or raise, every stored row
    keeps its place, and every attribute of every stored row is either as
    it was or holds a truthy value that the payload gives for that name:
    an attribute for which the payload gives only falsy values, or none,
    is stored as it was, so no stored attribute becomes empty, zero or
    false. A returned row is the selected row after the loop, and it is
    what is stored in its place. When the call raises, the stored table
    is the one from before the call, unless it is the read after the
    commit that failed; and it does raise, storing nothing, when the
    payload gives a truthy value that the mapped class refuses. *)
Theorem update_scoreset_skips_falsy rejects commit_ok refresh_ok u item_update table :
  let out := update_scoreset rejects commit_ok refresh_ok u (Some item_update) table in
  length out.2 = length table /\
  (forall i row,
     table !! i = Some row ->
     exists row',
       out.2 !! i = Some row' /\
       forall f,
         (row' !! f = row !! f \/
          exists v, (f, v) ∈ item_update /\ truthy v = true /\ row' !! f = Some v) /\
         ((forall v, (f, v) ∈ item_update -> truthy v = false) ->
          row' !! f = row !! f)) /\
  (forall item',
     out.1 = Ok (Some item') ->
     exists i item,
       table !! i = Some item /\ is_public_with_urn u item = true /\
       item' = apply_update item item_update /\
       out.2 !! i = Some item') /\
  (out.1 = Ok None -> out.2 = table) /\
  (forall e, out.1 = Raise e -> out.2 = table \/ refresh_ok out.2 = false) /\
  (forall item f v e,
     List.filter (is_public_with_urn u) table = [item] ->
     (f, v) ∈ item_update -> truthy v = true -> rejects f v = Some e ->
     exists e', out = (Raise e', table)).
Proof.
  assert (Hsame : forall (row : gmap string pyval) f,
            (row !! f = row !! f \/
             exists v, (f, v) ∈ item_update /\ truthy v = true /\ row !! f = Some v) /\
            ((forall v, (f, v) ∈ item_update -> truthy v = false) ->
             row !! f = row !! f)).
  { intros row f. split; [by left | done]. }
  assert (Hkeep : forall i (row : gmap string pyval), table !! i = Some row ->
            exists row', table !! i = Some row' /\
              forall f,
                (row' !! f = row !! f \/
                 exists v, (f, v) ∈ item_update /\ truthy v = true /\
                           row' !! f = Some v) /\
                ((forall v, (f, v) ∈ item_update -> truthy v = false) ->
                 row' !! f = row !! f)).
  { intros i row Hi. exists row. split; [done | apply Hsame]. }
  unfold update_scoreset.
  destruct (List.filter (is_public_with_urn u) table) as [|item [|item2 rest]] eqn:E;
    cbn [one_or_none]; cbn zeta.
  - simpl. split; [done|]. split; [exact Hkeep|]. split; [done|]. split; [done|].
    split; [intros e _; by left | done].
  - assert (Hsel : forall r, In r table -> is_public_with_urn u r = true -> r = item).
    { intros r Hr Hp.
      assert (H : In r (List.filter (is_public_with_urn u) table)) by (by apply filter_In).
      rewrite E in H. by destruct H as [->|[]]. }
    assert (Hitem : In item (List.filter (is_public_with_urn u) table))
      by (rewrite E; by left).
    apply filter_In in Hitem as [Hitem Hpub].
    destruct (update_loop rejects item item_update) as [item'|e] eqn:El.
    + assert (Hnone : forall f v e, (f, v) ∈ item_update -> truthy v = true ->
                                    rejects f v = Some e -> False).
      { intros f v e Hin Hv Hr.
        destruct (update_loop_refused rejects item item_update f v e Hin Hv Hr) as [e' He'].
        congruence. }
      apply update_loop_ok in El. subst item'.
      set (item' := apply_update item item_update).
      set (table' := (fun r => if is_public_with_urn u r then item' else r) <$> table).
      assert (Hrows : forall i row, table !! i = Some row ->
                exists row', table' !! i = Some row' /\
                  forall f,
                    (row' !! f = row !! f \/
                     exists v, (f, v) ∈ item_update /\ truthy v = true /\
                               row' !! f = Some v) /\
                    ((forall v, (f, v) ∈ item_update -> truthy v = false) ->
                     row' !! f = row !! f)).
      { intros i row Hi. unfold table'. rewrite list_lookup_fmap, Hi. simpl.
        destruct (is_public_with_urn u row) eqn:Hp; [|exists row; split; [done | apply Hsame]].
        exists item'. split; [done|].
        assert (row = item) as ->.
        { apply Hsel; [|done]. apply list_elem_of_In. by eapply list_elem_of_lookup_2. }
        intros f. pose proof (apply_update_lookup item item_update f) as H.
        split; [exact H|].
        intros Hfalsy. destruct H as [H|(v & Hv & Ht & _)]; [done|].
        rewrite (Hfalsy v Hv) in Ht. discriminate. }
      assert (Hstored : exists i, table !! i = Some item /\ table' !! i = Some item').
      { apply list_elem_of_In, list_elem_of_lookup_1 in Hitem as [i Hi].
        exists i. split; [done|]. unfold table'. rewrite list_lookup_fmap, Hi. simpl.
        by rewrite Hpub. }
      assert (Hlen : length table' = length table)
        by (unfold table'; by rewrite length_fmap).
      destruct (commit_ok table'); [destruct (refresh_ok table') eqn:Er|]; simpl.
      * split; [exact Hlen|]. split; [exact Hrows|].
        split; [|split; [done|split; [done|]]].
        -- intros it [= <-]. destruct Hstored as (i & Hi & Hi').
           exists i, item. done.
        -- intros it f v e _ Hin Hv Hr. destruct (Hnone f v e Hin Hv Hr).
      * split; [exact Hlen|]. split; [exact Hrows|].
        split; [done|]. split; [done|]. split; [intros e _; by right|].
        intros it f v e _ Hin Hv Hr. destruct (Hnone f v e Hin Hv Hr).
      * split; [done|]. split; [exact Hkeep|].
        split; [done|]. split; [done|]. split; [intros e _; by left|].
        intros it f v e _ Hin Hv Hr. destruct (Hnone f v e Hin Hv Hr).
    + simpl. split; [done|]. split; [exact Hkeep|].
      split; [done|]. split; [done|]. split; [intros e0 _; by left|].
      intros it f v e0 _ Hin Hv Hr. eauto.
  - simpl. split; [done|]. split; [exact Hkeep|]. split; [done|]. split; [done|].
    split; [intros e _; by left | done].
Qed.

End UpdateFacts.

Example update_scoreset_ignores_empty_title :
  Update.update_scoreset (fun _ _ => None) (fun _ => true) (fun _ => true)
     "urn:mavedb:00000001-a-1"
     (Some [("title", Update.PyStr ""); ("licence_id", Update.PyInt 0);
            ("short_description", Update.PyStr "new")])
     [ {[ "urn" := Update.PyStr "urn:mavedb:00000001-a-1";
          "private" := Update.PyBool false;
          "title" := Update.PyStr "old title";
          "licence_id" := Update.PyInt 3;
          "short_description" := Update.PyStr "old" ]} ]
  = (Ok (Some {[ "urn" := Update.PyStr "urn:mavedb:00000001-a-1";
                 "private" := Update.PyBool false;
                 "title" := Update.PyStr "old title";
                 "licence_id" := Update.PyInt 3;
                 "short_description" := Update.PyStr "new" ]}),
     [ {[ "urn" := Update.PyStr "urn:mavedb:00000001-a-1";
          "private" := Update.PyBool false;
          "title" := Update.PyStr "old title";
          "licence_id" := Update.PyInt 3;
          "short_description" := Update.PyStr "new" ]} ]).
Proof. by vm_compute. Qed.

(** A class that refuses a view-model object for [target_gene]: the
    update raises at that attribute and stores nothing, the description
    assigned before it included. *)
Example update_scoreset_target_gene_raises :
  Update.update_scoreset
     (fun var value =>
        match value with
        | Update.PyModel _ => Some AttributeError
        | _ => None
        end)
     (fun _ => true) (fun _ => true)
     "urn:mavedb:00000001-a-1"
     (Some [("short_description", Update.PyStr "new");
            ("target_gene", Update.PyModel [("name", Update.PyStr "BRCA1")])])
     [ {[ "urn" := Update.PyStr "urn:mavedb:00000001-a-1";
          "private" := Update.PyBool false;
          "short_description" := Update.PyStr "old" ]} ]
  = (Raise AttributeError,
     [ {[ "urn" := Update.PyStr "urn:mavedb:00000001-a-1";
          "private" := Update.PyBool false;
          "short_description" := Update.PyStr "old" ]} ]).
Proof. by vm_compute. Qed.

(** ** The read endpoints *)
Section ReadFacts.
Context {V : Type}.
Variable py_str : V -> string.

(** X1. [fetch_scoreset] never lets an exception escape. What it returns is
    a scoreset of the table that has the requested urn and is not
    private, and the only such one; it answers 404 exactly when there is
    no such scoreset and 500 exactly when there are two or more. *)
Theorem fetch_scoreset_outcome (u : string) (db : Store V) :
  match fetch_scoreset u db with
  | Return item =>
      item ∈ scoresets db /\ urn item = u /\ private item = false /\
      List.filter (public_with_urn u) (scoresets db) = [item]
  | Http status_code _ =>
      (status_code = 404%Z /\
       forall r, r ∈ scoresets db -> urn r = u -> private r = true) \/
      (status_code = 500%Z /\
       (2 <= length (List.filter (public_with_urn u) (scoresets db)))%nat)
  | Unhandled _ => False
  end.
Proof.
  unfold fetch_scoreset.
  destruct (List.filter (public_with_urn u) (scoresets db)) as [|x [|y l]] eqn:E; simpl.
  - left. split; [done|]. intros r Hr Hu.
    destruct (private r) eqn:Hp; [done|]. exfalso.
    assert (Hin : In r (List.filter (public_with_urn u) (scoresets db))).
    { apply filter_In. split; [by apply list_elem_of_In|].
      by apply public_with_urn_true. }
    by rewrite E in Hin.
  - assert (Hin : In x (List.filter (public_with_urn u) (scoresets db)))
      by (rewrite E; by left).
    apply filter_In in Hin as [Hin Hp]. apply public_with_urn_true in Hp as [Hu Hp].
    split; [by apply list_elem_of_In | done].
  - right. split; [done | lia].
Qed.

Lemma format_row_keys (variant : Variant V) columns dtype na_rep row :
  format_row py_str variant columns dtype na_rep = Ok row ->
  dict_to_list columns row =
  Ok ((fun key => default "" (row !! key)) <$> columns).
Proof.
  intros H. apply row_loop_ok in H as [Hout _].
  unfold dict_to_list. rewrite bool_decide_eq_true_2; [done|].
  apply Forall_forall. intros k Hk.
  apply list_elem_of_fmap in Hk as ([k' v] & -> & Hkv). simpl.
  apply elem_of_map_to_list in Hkv.
  destruct (decide (k' ∈ columns)) as [|Hn]; [done|].
  rewrite (Hout k' Hn), lookup_empty in Hkv. discriminate.
Qed.

(** The rows of [format_csv_rows] never make the csv writer raise. *)
Lemma csv_lines_of_rows (vs : list (Variant V)) columns dtype na_rep rows :
  format_csv_rows py_str vs columns dtype na_rep = Ok rows ->
  rmap (dict_to_list columns) rows =
  Ok ((fun row => (fun key => default "" (row !! key)) <$> columns) <$> rows).
Proof.
  unfold format_csv_rows. intros H. apply rmap_ok in H. apply rmap_ok.
  induction H as [|v row vs rows Hrow _ IH]; simpl; [constructor|].
  constructor; [by eapply format_row_keys | done].
Qed.

(** X2. The scores download of a scoreset whose manifest lists its score
    columns, by outcome. A returned table has the four fixed
    columns followed by the declared score columns as its header and one
    line per variant of the scoreset, in order, each line holding for
    every header position the value of that column with null spellings
    replaced by NA. The only status raised is 404, exactly when no
    scoreset, private or not, has the urn. The only exception that
    escapes is [KeyError], when a variant lacks a declared score column. *)
Theorem fetch_scoreset_scores_outcome (u : string) (db : Store V) :
  match fetch_scoreset_scores py_str u db with
  | Return (header, lines) =>
      exists scoreset,
        head (List.filter (fun s => bool_decide (urn s = u)) (scoresets db))
          = Some scoreset /\
        header = (scores_header ++ score_columns (dataset_columns scoreset))%list /\
        length lines = length (scoreset_variants scoreset db) /\
        forall i variant, scoreset_variants scoreset db !! i = Some variant ->
          exists line, lines !! i = Some line /\
            length line = length header /\
            forall j c, header !! j = Some c ->
              exists value,
                column_value py_str variant "score_data" c = Ok value /\
                line !! j = Some (if is_null value then "NA" else value)
  | Http status_code _ =>
      status_code = 404%Z /\ forall r, r ∈ scoresets db -> urn r <> u
  | Unhandled e =>
      e = KeyError /\
      exists scoreset variant c,
        head (List.filter (fun s => bool_decide (urn s = u)) (scoresets db))
          = Some scoreset /\
        variant ∈ scoreset_variants scoreset db /\
        c ∈ score_columns (dataset_columns scoreset) /\
        (c ∉ fixed_columns) /\
        data variant !! "score_data" ≫= (fun category => category !! c) = None
  end.
Proof.
  unfold fetch_scoreset_scores.
  destruct (head _) as [scoreset|] eqn:Eh.
  - cbv zeta.
    destruct (format_csv_rows _ _ _ _ _) as [rows|e] eqn:Ef.
    + rewrite (csv_lines_of_rows _ _ _ _ _ Ef).
      unfold format_csv_rows in Ef. apply rmap_ok in Ef.
      exists scoreset. split; [done|]. split; [done|].
      split; [rewrite length_fmap; symmetry; by eapply Forall2_length|].
      intros i variant Hi.
      destruct (Forall2_lookup_l _ _ _ _ _ Ef Hi) as (row & Hrow & Hfmt).
      eexists. split; [by rewrite list_lookup_fmap, Hrow|].
      split; [by rewrite length_fmap|].
      intros j c Hj. rewrite list_lookup_fmap, Hj. simpl.
      apply row_loop_ok in Hfmt as [_ Hcols].
      destruct (Hcols c) as (value & Hval & Hlook);
        [by eapply list_elem_of_lookup_2|].
      exists value. split; [done|]. by rewrite Hlook.
    + unfold format_csv_rows in Ef.
      apply rmap_raise_inv in Ef as (variant & Hv & Hfmt).
      apply format_row_raise in Hfmt as (-> & c & Hc & Hfix & Hd).
      split; [done|]. exists scoreset, variant, c.
      split; [done|]. split; [done|]. split; [|done].
      apply elem_of_app in Hc as [Hc|Hc]; [|done].
      exfalso. apply Hfix. unfold scores_header, fixed_columns in *.
      rewrite !elem_of_cons in *. tauto.
  - split; [done|]. intros r Hr Hu.
    assert (Hin : In r (List.filter (fun s => bool_decide (urn s = u)) (scoresets db))).
    { apply filter_In. split; [by apply list_elem_of_In|].
      by apply bool_decide_eq_true. }
    by destruct (List.filter _ (scoresets db)).
Qed.

End ReadFacts.

Section ReadPrivacy.
Context {V : Type}.
Variable py_str : V -> string.

Lemma filter_urn_with_private (f : Scoreset -> bool) u (table : list Scoreset) :
  List.filter (fun s => bool_decide (urn s = u))
    ((fun s => with_private (f s) s) <$> table)
  = (fun s => with_private (f s) s)
      <$> List.filter (fun s => bool_decide (urn s = u)) table.
Proof.
  induction table as [|r table IH]; [done|].
  rewrite fmap_cons. cbn [List.filter]. rewrite IH. simpl.
  by destruct (bool_decide (urn r = u)).
Qed.

(** X3. The scores download never looks at the [private] flag: whatever the
    flags of the scoresets are set to, the answer is the same. (The
    detail endpoint, by contrast, hides private scoresets.) *)
Theorem fetch_scoreset_scores_ignores_private
    (f : Scoreset -> bool) (u : string) (db : Store V) :
  fetch_scoreset_scores py_str u
    {| scoresets := (fun s => with_private (f s) s) <$> scoresets db;
       variants := variants db |}
  = fetch_scoreset_scores py_str u db.
Proof.
  unfold fetch_scoreset_scores, scoreset_variants. simpl.
  rewrite filter_urn_with_private.
  destruct (List.filter _ (scoresets db)) as [|r l]; simpl; [done|].
  done.
Qed.

End ReadPrivacy.

(** ** A successful upload *)
Section UploadSuccess.
Context {F V : Type}.
Variable parse_float : string -> option F.
Variable na_values : list string.
Variable create_variants_data :
  DataFrame F -> option (DataFrame F) -> result (list (VariantData V)).
Variable insert_ok : Store V -> list (Variant V) -> bool.
Variable commit_ok : Store V -> bool.
Variable refresh_ok : Store V -> bool.

Lemma load_table_columns (raw : RawTable) (df : DataFrame F) c :
  load_table parse_float na_values raw = Ok df ->
  c ∈ columns df <-> c ∈ (fields raw).*1 \/ c ∈ HGVSColumns.options.
Proof.
  unfold load_table.
  destruct (read_csv parse_float na_values upload_dtype raw) as [df0|e] eqn:Er; [|done].
  simpl. intros [= <-].
  apply read_csv_shape in Er as [_ Hc].
  destruct (replace_shape df0) as [_ Hc'].
  destruct (add_missing_hgvs_spec (replace df0)) as (_ & P & K & _ & O).
  rewrite <- Hc, <- Hc'. split.
  - apply O.
  - intros [H|H]; [by apply K | by apply P].
Qed.

Lemma data_columns_spec (df : DataFrame F) c :
  c ∈ data_columns df <-> c ∈ columns df /\ (c ∉ HGVSColumns.options).
Proof.
  unfold data_columns. rewrite elem_of_elements, elem_of_list_to_set.
  by rewrite list_elem_of_filter, (comm and).
Qed.

(** X4. The column manifest that a successful upload stores. Its score
    columns are exactly the header names of the scores file that are not
    identifier columns, each once. Its count columns are those of the
    counts file in the same way, and there are none when no counts file
    was sent or the one sent has an empty file name. *)
Theorem upload_success_manifest u counts_file scores_file user s item' s' :
  upload_scoreset_variant_data parse_float na_values create_variants_data
    insert_ok commit_ok refresh_ok u counts_file scores_file user s = (Ok (Some item'), s') ->
  (forall c, c ∈ score_columns (dataset_columns item') <->
             c ∈ (fields (file scores_file)).*1 /\ (c ∉ HGVSColumns.options)) /\
  NoDup (score_columns (dataset_columns item')) /\
  NoDup (count_columns (dataset_columns item')) /\
  match counts_file with
  | Some f =>
      if PyStr.truthy (filename f)
      then forall c, c ∈ count_columns (dataset_columns item') <->
                     c ∈ (fields (file f)).*1 /\ (c ∉ HGVSColumns.options)
      else count_columns (dataset_columns item') = []
  | None => count_columns (dataset_columns item') = []
  end.
Proof.
  intros H. apply upload_ok_inv in H
    as (item & scores_df & counts_df & count_cols & vd & _ & Hs & Hc & _ & -> & _).
  simpl. split; [|split; [apply NoDup_elements|split]].
  - intros c. rewrite data_columns_spec, (load_table_columns _ _ _ Hs). tauto.
  - destruct counts_file as [f|]; [|destruct Hc as [_ ->]; constructor].
    destruct (PyStr.truthy (filename f)); [|destruct Hc as [_ ->]; constructor].
    destruct Hc as (df & _ & _ & ->). apply NoDup_elements.
  - destruct counts_file as [f|]; [|by destruct Hc].
    destruct (PyStr.truthy (filename f)); [|by destruct Hc].
    destruct Hc as (df & Hdf & _ & ->).
    intros c. rewrite data_columns_spec, (load_table_columns _ _ _ Hdf). tauto.
Qed.

(** X5. A successful upload advances the counter of its scoreset by exactly
    the number of variants it adds, and the added variants, all of that
    scoreset, carry the consecutive urns that follow the old counter. *)
Theorem upload_success_counter u counts_file scores_file user s item' s' :
  upload_scoreset_variant_data parse_float na_values create_variants_data
    insert_ok commit_ok refresh_ok u counts_file scores_file user s = (Ok (Some item'), s') ->
  exists item new,
    item ∈ scoresets (txn s) /\ urn item = u /\ id item' = id item /\
    variants (persisted s') = (variants (txn s) ++ new)%list /\
    num_variants item' = (num_variants item + Z.of_nat (length new))%Z /\
    v_urn <$> new =
      ((fun i => format_urn u (num_variants item + (i + 1)))
         <$> range (Z.of_nat (length new))) /\
    Forall (fun v => scoreset_id v = id item) new.
Proof.
  intros H. apply upload_ok_inv in H
    as (item & scores_df & counts_df & count_cols & vd & Hq & _ & _ & _ & -> & Hp & _ & Hv).
  assert (Hin : In item (List.filter (public_with_urn u) (scoresets (txn s))))
    by (rewrite Hq; by left).
  apply filter_In in Hin as [Hin Hpub]. apply public_with_urn_true in Hpub as [Hu _].
  eexists item, _. split; [by apply list_elem_of_In|]. split; [done|]. split; [done|].
  rewrite Hp. split; [exact Hv|].
  assert (Hlen : length ((fun p : string * VariantData V => make_variant p.1 (id item) p.2)
           <$> zip ((fun i => format_urn (urn item) (num_variants item + (i + 1)))
                      <$> range (Z.of_nat (length vd))) vd) = length vd).
  { rewrite length_fmap, length_zip_with, length_fmap, UrnFacts.length_range, Nat2Z.id.
    lia. }
  rewrite Hlen. split; [done|]. split.
  - rewrite <- Hu. apply fmap_urn_zip.
    by rewrite length_fmap, UrnFacts.length_range, Nat2Z.id.
  - apply Forall_fmap, Forall_forall. by intros [? ?] _.
Qed.

(** X6. A successful upload touches one row of the scoreset table: the
    returned item is in the persisted table, has the urn, the id and the
    visibility it had, names the uploading user as its modifier, and
    every scoreset with another id is persisted as it was. *)
Theorem upload_success_frame u counts_file scores_file user s item' s' :
  upload_scoreset_variant_data parse_float na_values create_variants_data
    insert_ok commit_ok refresh_ok u counts_file scores_file user s = (Ok (Some item'), s') ->
  item' ∈ scoresets (persisted s') /\
  urn item' = u /\ private item' = false /\ modified_by item' = Some user /\
  length (scoresets (persisted s')) = length (scoresets (txn s)) /\
  forall i r, scoresets (txn s) !! i = Some r -> id r <> id item' ->
              scoresets (persisted s') !! i = Some r.
Proof.
  intros H. apply upload_ok_inv in H
    as (item & scores_df & counts_df & count_cols & vd & Hq & _ & _ & _ & Hitem & Hp & Ht & _).
  assert (Hin : In item (List.filter (public_with_urn u) (scoresets (txn s))))
    by (rewrite Hq; by left).
  apply filter_In in Hin as [Hin Hpub]. apply public_with_urn_true in Hpub as [Hu Hpriv].
  rewrite Hp, Ht. unfold write_back. split; [|split; [|split; [|split; [|split]]]].
  - apply list_elem_of_fmap. exists item. split; [|by apply list_elem_of_In].
    rewrite decide_True; [done | by subst item'].
  - by subst item'.
  - by subst item'.
  - by subst item'.
  - by rewrite length_fmap.
  - intros i r Hi Hne. rewrite list_lookup_fmap, Hi. simpl.
    by rewrite decide_False.
Qed.

End UploadSuccess.

Lemma upload_success_manifest_witness :
  exists item',
    (upload_scoreset_variant_data parse_decimal sample_na_values sample_merge
       (fun _ _ => true) (fun _ => true) (fun _ => true)
       "urn:mavedb:00000001-a-1" None sample_scores_file 5%Z (fresh sample_store)).1
    = Ok (Some item') /\
    count_columns (dataset_columns item') = [] /\
    forall c, c ∈ score_columns (dataset_columns item') <->
              c ∈ (fields (file sample_scores_file)).*1 /\ (c ∉ HGVSColumns.options).
Proof.
  eexists. split; [vm_compute; reflexivity|].
  pose proof (upload_success_manifest parse_decimal sample_na_values sample_merge
                (fun _ _ => true) (fun _ => true) (fun _ => true)
                "urn:mavedb:00000001-a-1" None sample_scores_file 5%Z
                (fresh sample_store) _ _ ltac:(vm_compute; reflexivity))
    as (Hs & _ & _ & Hc).
  split; [exact Hc | exact Hs].
Defined.

Lemma upload_success_counter_witness :
  exists item',
    (upload_scoreset_variant_data parse_decimal sample_na_values sample_merge
       (fun _ _ => true) (fun _ => true) (fun _ => true)
       "urn:mavedb:00000001-a-1" None sample_scores_file 5%Z (fresh sample_store)).1
    = Ok (Some item') /\
    exists (item : Scoreset) (new : list (Variant Z)),
      item ∈ scoresets sample_store /\
      num_variants item' = (num_variants item + Z.of_nat (length new))%Z.
Proof.
  eexists. split; [vm_compute; reflexivity|].
  destruct (upload_success_counter parse_decimal sample_na_values sample_merge
              (fun _ _ => true) (fun _ => true) (fun _ => true)
              "urn:mavedb:00000001-a-1" None sample_scores_file 5%Z
              (fresh sample_store) _ _ ltac:(vm_compute; reflexivity))
    as (item & new & Hin & _ & _ & _ & Hn & _).
  exists item, new. split; [exact Hin | exact Hn].
Defined.

Lemma upload_success_frame_witness :
  exists item',
    (upload_scoreset_variant_data parse_decimal sample_na_values sample_merge
       (fun _ _ => true) (fun _ => true) (fun _ => true)
       "urn:mavedb:00000001-a-1" None sample_scores_file 5%Z (fresh sample_store)).1
    = Ok (Some item') /\
    modified_by item' = Some 5%Z.
Proof.
  eexists. split; [vm_compute; reflexivity|].
  exact (proj1 (proj2 (proj2 (proj2
    (upload_success_frame parse_decimal sample_na_values sample_merge
       (fun _ _ => true) (fun _ => true) (fun _ => true)
       "urn:mavedb:00000001-a-1" None sample_scores_file 5%Z
       (fresh sample_store) _ _ ltac:(vm_compute; reflexivity)))))).
Defined.

(** ** An upload that fails while loading, and a download after an upload *)
Section UploadCompose.
Context {F V : Type}.
Variable parse_float : string -> option F.
Variable na_values : list string.
Variable create_variants_data :
  DataFrame F -> option (DataFrame F) -> result (list (VariantData V)).
Variable insert_ok : Store V -> list (Variant V) -> bool.
Variable commit_ok : Store V -> bool.
Variable refresh_ok : Store V -> bool.
Variable py_str : V -> string.

(** X7. A scores file whose [scores] column holds a token that is neither a
    null token nor a number stops the upload with [ValueError] before
    the counts file is read and before the merge routine runs; the
    session, transaction included, is as it was. *)
Theorem upload_malformed_scores_raises u counts_file scores_file user s item toks t :
  List.filter (public_with_urn u) (scoresets (txn s)) = [item] ->
  u <> "" ->
  ("scores", toks) ∈ fields (file scores_file) ->
  t ∈ toks ->
  bad_token parse_float na_values t ->
  upload_scoreset_variant_data parse_float na_values create_variants_data
    insert_ok commit_ok refresh_ok u counts_file scores_file user s
  = (Raise ValueError, s).
Proof.
  intros Hq Hu Hin Ht Hbad.
  assert (Hitem : urn item = u).
  { assert (H : In item (List.filter (public_with_urn u) (scoresets (txn s))))
      by (rewrite Hq; by left).
    apply filter_In in H as [_ H]. by apply public_with_urn_true in H as [? _]. }
  assert (Hload : load_table parse_float na_values (file scores_file) = Raise ValueError).
  { unfold load_table.
    by rewrite (read_csv_bad_token _ _ _ _ _ Hin Ht Hbad). }
  unfold upload_scoreset_variant_data, bind, query_scoreset, lift.
  rewrite Hq. simpl. rewrite Hitem.
  destruct u as [|c u]; [done|]. simpl. by rewrite Hload.
Qed.

Lemma filter_urn_write_back (item item' : Scoreset) (table : list Scoreset) :
  id item' = id item -> urn item' = urn item ->
  item ∈ table ->
  (forall r, r ∈ table -> urn r = urn item -> r = item) ->
  head (List.filter (fun r => bool_decide (urn r = urn item)) (write_back item' table))
  = Some item'.
Proof.
  intros Hid Hurn Hin Huniq.
  induction table as [|x table IH]; [by apply elem_of_nil in Hin|].
  unfold write_back. rewrite fmap_cons. cbn [List.filter].
  destruct (decide (id x = id item')) as [Hx|Hx].
  - by rewrite bool_decide_eq_true_2.
  - destruct (bool_decide (urn x = urn item)) eqn:Eu.
    + apply bool_decide_eq_true in Eu.
      assert (x = item) by (apply Huniq; [by left | done]). congruence.
    + apply IH.
      * apply elem_of_cons in Hin as [->|Hin]; [congruence | done].
      * intros r Hr. apply Huniq. by right.
Qed.

(** X8. Upload, then download. When the scoreset is the only one with its
    urn and one of its earlier variants has no value for a data column
    that the new scores file declares, the upload succeeds and the scores
    download of that scoreset then raises [KeyError]: the earlier variant
    is still there and the new column is now in the header. *)
Theorem download_after_upload_with_new_column
    u counts_file scores_file user p item' s' v c :
  upload_scoreset_variant_data parse_float na_values create_variants_data
    insert_ok commit_ok refresh_ok u counts_file scores_file user (fresh p)
    = (Ok (Some item'), s') ->
  (forall r1 r2, r1 ∈ scoresets p -> r2 ∈ scoresets p ->
                 urn r1 = u -> urn r2 = u -> r1 = r2) ->
  v ∈ variants p -> scoreset_id v = id item' ->
  c ∈ (fields (file scores_file)).*1 ->
  c ∉ HGVSColumns.options -> c <> "accession" ->
  data v !! "score_data" ≫= (fun category => category !! c) = None ->
  fetch_scoreset_scores py_str u (persisted s') = Unhandled KeyError.
Proof.
  intros Hup Huniq Hv Hsid Hc Hopt Hacc Hd.
  pose proof Hup as Hman.
  apply (upload_ok_inv parse_float na_values create_variants_data insert_ok commit_ok refresh_ok)
    in Hup as (item & scores_df & counts_df & count_cols & vd
               & Hq & Hs & _ & _ & Hitem & Hp & Ht & Hvs).
  simpl in Hq, Ht, Hvs.
  assert (Hin : In item (List.filter (public_with_urn u) (scoresets p)))
    by (rewrite Hq; by left).
  apply filter_In in Hin as [Hin Hpub]. apply public_with_urn_true in Hpub as [Hu _].
  apply list_elem_of_In in Hin.
  assert (Hid : id item' = id item) by (by subst item').
  assert (Hurn : urn item' = urn item) by (by subst item').
  assert (Hscore : c ∈ score_columns (dataset_columns item')).
  { subst item'. simpl. apply data_columns_spec. split; [|done].
    apply (load_table_columns parse_float na_values _ _ _ Hs). by left. }
  unfold fetch_scoreset_scores. rewrite Hp, Ht, <- Hu.
  rewrite (filter_urn_write_back item item' (scoresets p) Hid Hurn Hin).
  2:{ intros r Hr Hru. apply Huniq; congruence. }
  cbv zeta.
  assert (Hvin : v ∈ scoreset_variants item' (txn s')).
  { unfold scoreset_variants. apply list_elem_of_In, filter_In. split.
    - rewrite Hvs. apply in_or_app. left. by apply list_elem_of_In.
    - by apply bool_decide_eq_true. }
  assert (Hfix : c ∉ fixed_columns).
  { unfold fixed_columns, HGVSColumns.options, HGVSColumns.NUCLEOTIDE,
      HGVSColumns.TRANSCRIPT, HGVSColumns.PROTEIN in *.
    rewrite !not_elem_of_cons in *. tauto. }
  destruct (format_csv_rows py_str (scoreset_variants item' (txn s')) _ "score_data" "NA")
    as [rows|e] eqn:Ef.
  - exfalso. unfold format_csv_rows in Ef.
    destruct (proj2 (rmap_raise
                (fun variant => format_row py_str variant
                   (scores_header ++ score_columns (dataset_columns item'))
                   "score_data" "NA")
                (scoreset_variants item' (txn s')))) as [e He]; [|congruence].
    exists v, KeyError. split; [done|].
    apply format_row_raise. split; [done|]. exists c.
    split; [apply elem_of_app; by right | done].
  - unfold format_csv_rows in Ef. apply rmap_raise_inv in Ef as (v' & _ & Hf).
    by apply format_row_raise in Hf as [-> _].
Qed.

(** X22. When two or more scoresets that are not private have the given
    urn, the upload handler lets [MultipleResultsFound] escape, whatever
    the files hold, and the session is as it was; the detail endpoint
    turns the same situation into a 500. *)
Theorem upload_duplicate_urn_raises u counts_file scores_file user s :
  (2 <= length (List.filter (public_with_urn u) (scoresets (txn s))))%nat ->
  upload_scoreset_variant_data parse_float na_values create_variants_data
    insert_ok commit_ok refresh_ok u counts_file scores_file user s
  = (Raise MultipleResultsFound, s) /\
  exists detail, fetch_scoreset u (txn s) = Http 500 detail.
Proof.
  intros H. unfold upload_scoreset_variant_data, bind, query_scoreset, fetch_scoreset.
  destruct (List.filter (public_with_urn u) (scoresets (txn s))) as [|x [|y l]];
    simpl in *; try lia.
  split; [done | eauto].
Qed.

End UploadCompose.

Lemma upload_malformed_scores_raises_witness :
  upload_scoreset_variant_data parse_decimal sample_na_values sample_merge
    (fun _ _ => true) (fun _ => true) (fun _ => true)
    "urn:mavedb:00000001-a-1" None malformed_scores_file 5%Z (fresh sample_store)
  = (Raise ValueError, fresh sample_store).
Proof.
  apply (upload_malformed_scores_raises parse_decimal sample_na_values sample_merge
           (fun _ _ => true) (fun _ => true) (fun _ => true)
           "urn:mavedb:00000001-a-1" None malformed_scores_file 5%Z
           (fresh sample_store) sample_scoreset ["abc"] "abc").
  - reflexivity.
  - discriminate.
  - right. by left.
  - by left.
  - split; reflexivity.
Defined.

Lemma download_after_upload_with_new_column_witness :
  fetch_scoreset_scores str_of_int "urn:mavedb:00000001-a-1"
    (persisted
       (upload_scoreset_variant_data parse_decimal sample_na_values sample_merge
          (fun _ _ => true) (fun _ => true) (fun _ => true)
          "urn:mavedb:00000001-a-1" None scores_file_with_se 5%Z
          (fresh sample_store)).2)
  = Unhandled KeyError.
Proof.
  eapply (download_after_upload_with_new_column parse_decimal sample_na_values
            sample_merge (fun _ _ => true) (fun _ => true) (fun _ => true) str_of_int
            "urn:mavedb:00000001-a-1" None scores_file_with_se 5%Z sample_store
            _ _
            (make_variant "urn:mavedb:00000001-a-1#1" 1 (sample_variant_data "c.1A>G"))
            "se").
  - vm_compute. reflexivity.
  - intros r1 r2 H1 H2 _ _. simpl in H1, H2.
    apply list_elem_of_singleton in H1, H2. congruence.
  - by left.
  - reflexivity.
  - simpl. right. right. by left.
  - unfold HGVSColumns.options. rewrite !not_elem_of_cons.
    repeat split; try discriminate. apply not_elem_of_nil.
  - discriminate.
  - reflexivity.
Defined.

(** ** Urns determine their parent and their number *)
Module UrnPairFacts.

Lemma occurs_app c (s1 s2 : string) : occurs c (s1 +:+ s2) = occurs c s1 || occurs c s2.
Proof.
  induction s1 as [|a s1 IH]; [done|].
  rewrite ReFacts.append_cons. simpl. by rewrite IH, orb_assoc.
Qed.

Lemma occurs_string_of_uint c d :
  occurs c (NilEmpty.string_of_uint d) = true ->
  exists n, (n < 10)%nat /\ c = ascii_of_nat (48 + n).
Proof.
  induction d; cbn [NilEmpty.string_of_uint occurs]; [discriminate|..];
    (intros H; apply orb_true_iff in H as [H|H]; [|by apply IHd];
     apply Ascii.eqb_eq in H as <-).
  - exists 0%nat. split; [lia | reflexivity].
  - exists 1%nat. split; [lia | reflexivity].
  - exists 2%nat. split; [lia | reflexivity].
  - exists 3%nat. split; [lia | reflexivity].
  - exists 4%nat. split; [lia | reflexivity].
  - exists 5%nat. split; [lia | reflexivity].
  - exists 6%nat. split; [lia | reflexivity].
  - exists 7%nat. split; [lia | reflexivity].
  - exists 8%nat. split; [lia | reflexivity].
  - exists 9%nat. split; [lia | reflexivity].
Qed.

(** The decimal of an integer has no hash sign. *)
Lemma str_of_int_no_hash z : occurs "#" (str_of_int z) = false.
Proof.
  destruct (occurs "#" (str_of_int z)) eqn:E; [|done]. exfalso.
  unfold str_of_int, NilZero.string_of_int, NilZero.string_of_uint in E.
  assert (Hd : forall d, occurs "#" (NilEmpty.string_of_uint d) = true -> False).
  { intros d H. apply occurs_string_of_uint in H as (n & Hn & H).
    do 10 (destruct n as [|n]; [discriminate|]). lia. }
  destruct (Z.to_int z) as [d|d]; destruct d; simpl in E;
    try discriminate; try (by apply (Hd _ E));
    try (apply orb_true_iff in E as [E|E]; [discriminate | by apply (Hd _ E)]).
Qed.

Lemma split_at_last_hash (p1 p2 d1 d2 : string) :
  occurs "#" d1 = false -> occurs "#" d2 = false ->
  p1 +:+ "#" +:+ d1 = p2 +:+ "#" +:+ d2 -> p1 = p2 /\ d1 = d2.
Proof.
  intros H1 H2. revert p2. induction p1 as [|a p1 IH]; intros [|b p2] E.
  - change (String "#" d1 = String "#" d2) in E. by injection E as ->.
  - exfalso. change (String "#" d1 = String b (p2 +:+ "#" +:+ d2)) in E.
    injection E as _ E. rewrite E, !occurs_app in H1.
    change (occurs "#" ("#" +:+ d2)) with true in H1.
    by rewrite orb_true_r in H1.
  - exfalso. change (String a (p1 +:+ "#" +:+ d1) = String "#" d2) in E.
    injection E as _ E. rewrite <- E, !occurs_app in H2.
    change (occurs "#" ("#" +:+ d1)) with true in H2.
    by rewrite orb_true_r in H2.
  - change (String a (p1 +:+ "#" +:+ d1) = String b (p2 +:+ "#" +:+ d2)) in E.
    injection E as -> E. destruct (IH _ E) as [-> ->]. done.
Qed.

Lemma format_urn_determines_parent_and_number_aux (p1 p2 : string) (k1 k2 : Z) :
  format_urn p1 k1 = format_urn p2 k2 -> p1 = p2 /\ k1 = k2.
Proof.
  unfold format_urn. intros E.
  apply split_at_last_hash in E as [-> E]; try apply str_of_int_no_hash.
  split; [done|]. by apply UrnFacts.str_of_int_inj.
Qed.

(** X9. A variant urn determines the parent urn and the number it was made
    from: two scoresets with different urns never issue the same variant
    urn, whatever their counters, and one scoreset issues the same urn
    only for the same number. *)
Theorem format_urn_determines_parent_and_number (p1 p2 : string) (k1 k2 : Z) :
  format_urn p1 k1 = format_urn p2 k2 -> p1 = p2 /\ k1 = k2.
Proof. apply format_urn_determines_parent_and_number_aux. Qed.

End UrnPairFacts.

Lemma format_urn_determines_parent_and_number_witness :
  "urn:mavedb:00000001-a-1" = "urn:mavedb:00000001-a-1" /\ 12%Z = 12%Z.
Proof.
  exact (UrnPairFacts.format_urn_determines_parent_and_number
           "urn:mavedb:00000001-a-1" "urn:mavedb:00000001-a-1" 12 12 eq_refl).
Defined.

(** ** The null normaliser does not see case or padding *)
Module NullFacts.
Import PyStr.

Lemma lstrip_lower s : lstrip (lower s) = lower (lstrip s).
Proof.
  induction s as [|c s IH]; [done|]. cbn [lower lstrip].
  rewrite PyStrFacts.isspace_tolower. by destruct (isspace c).
Qed.

Lemma rstrip_lower s : rstrip (lower s) = lower (rstrip s).
Proof.
  induction s as [|c s IH]; [done|]. cbn [lower rstrip]. rewrite IH.
  destruct (rstrip s); cbn [lower]; [|done].
  rewrite PyStrFacts.isspace_tolower. by destruct (isspace c).
Qed.

Lemma strip_lower s : strip (lower s) = lower (strip s).
Proof. unfold strip. by rewrite lstrip_lower, rstrip_lower. Qed.

Lemma lstrip_blank w : all_space w = true -> lstrip w = "".
Proof.
  induction w as [|c w IH]; [done|]. cbn [all_space lstrip].
  intros H. apply andb_true_iff in H as [-> H]. by apply IH.
Qed.

Lemma rstrip_blank w : all_space w = true -> rstrip w = "".
Proof.
  induction w as [|c w IH]; [done|]. cbn [all_space rstrip].
  intros H. apply andb_true_iff in H as [-> H]. by rewrite IH.
Qed.

Lemma lstrip_pad_left w s : all_space w = true -> lstrip (w +:+ s) = lstrip s.
Proof.
  induction w as [|c w IH]; [done|]. cbn [all_space].
  intros H. apply andb_true_iff in H as [Hc H].
  rewrite ReFacts.append_cons. cbn [lstrip]. rewrite Hc. by apply IH.
Qed.

Lemma rstrip_pad_right s w : all_space w = true -> rstrip (s +:+ w) = rstrip s.
Proof.
  intros H. induction s as [|c s IH].
  - rewrite ReFacts.append_nil_l. by apply rstrip_blank.
  - rewrite ReFacts.append_cons. cbn [rstrip]. by rewrite IH.
Qed.

Lemma strip_pad_right s w : all_space w = true -> strip (s +:+ w) = strip s.
Proof.
  intros H. unfold strip. induction s as [|c s IH].
  - rewrite ReFacts.append_nil_l, (lstrip_blank _ H). done.
  - rewrite ReFacts.append_cons. cbn [lstrip]. destruct (isspace c); [done|].
    rewrite <- ReFacts.append_cons. by apply rstrip_pad_right.
Qed.

Lemma strip_pad w1 s w2 :
  all_space w1 = true -> all_space w2 = true -> strip (w1 +:+ s +:+ w2) = strip s.
Proof.
  intros H1 H2. unfold strip. rewrite (lstrip_pad_left _ _ H1).
  by apply strip_pad_right.
Qed.

(** X10. Two tokens that differ only in the case of their letters and in
    white space around them are classified alike. *)
Theorem is_null_modulo_case_and_padding (w1 s w2 t : string) :
  all_space w1 = true -> all_space w2 = true -> lower s = lower t ->
  is_null (w1 +:+ s +:+ w2) = is_null t.
Proof.
  intros H1 H2 E. unfold is_null.
  by rewrite (strip_pad _ _ _ H1 H2), <- !strip_lower, E.
Qed.

End NullFacts.

Lemma is_null_modulo_case_and_padding_witness :
  is_null ("  " +:+ "NaN" +:+ " ") = is_null "nan".
Proof.
  exact (NullFacts.is_null_modulo_case_and_padding "  " "NaN" " " "nan"
           eq_refl eq_refl eq_refl).
Defined.

(** ** More on the exporter *)
Section ExporterMore.
Context {V : Type}.
Variable py_str : V -> string.

(** X11. In an exported row the sentinel is the only null spelling: a cell
    that [is_null] classifies as missing is the sentinel itself. *)
Theorem exported_null_cell_is_sentinel
    (variants : list (Variant V)) columns dtype na_rep rows row c cell :
  format_csv_rows py_str variants columns dtype na_rep = Ok rows ->
  row ∈ rows -> row !! c = Some cell -> is_null cell = true -> cell = na_rep.
Proof.
  unfold format_csv_rows. intros H Hrow Hc Hnull. apply rmap_ok in H.
  apply list_elem_of_lookup in Hrow as [i Hi].
  destruct (Forall2_lookup_r _ _ _ _ _ H Hi) as (variant & _ & Hfmt).
  apply row_loop_ok in Hfmt as [Hout Hin].
  destruct (decide (c ∈ columns)) as [Hcol|Hcol].
  - destruct (Hin c Hcol) as (value & _ & Hlook).
    rewrite Hlook in Hc. injection Hc as <-.
    destruct (is_null value) eqn:Ev; [done | congruence].
  - rewrite (Hout c Hcol), lookup_empty in Hc. discriminate.
Qed.

Lemma format_row_same_columns (variant : Variant V) cols1 cols2 dtype na_rep :
  (forall c, c ∈ cols1 <-> c ∈ cols2) ->
  format_row py_str variant cols1 dtype na_rep
  = format_row py_str variant cols2 dtype na_rep.
Proof.
  intros Hsame.
  destruct (format_row py_str variant cols1 dtype na_rep) as [r1|e1] eqn:E1;
    destruct (format_row py_str variant cols2 dtype na_rep) as [r2|e2] eqn:E2.
  - f_equal. apply map_eq. intros c.
    apply row_loop_ok in E1 as [O1 I1]. apply row_loop_ok in E2 as [O2 I2].
    destruct (decide (c ∈ cols1)) as [Hc|Hc].
    + destruct (I1 c Hc) as (v1 & Hv1 & L1).
      destruct (I2 c (proj1 (Hsame c) Hc)) as (v2 & Hv2 & L2).
      rewrite L1, L2. rewrite Hv1 in Hv2. by injection Hv2 as ->.
    + rewrite (O1 c Hc), (O2 c); [done|]. by rewrite <- Hsame.
  - exfalso. apply format_row_raise in E2 as (_ & c & Hc & Hf & Hd).
    assert (H : format_row py_str variant cols1 dtype na_rep = Raise KeyError).
    { apply format_row_raise. split; [done|]. exists c. by rewrite Hsame. }
    congruence.
  - exfalso. apply format_row_raise in E1 as (_ & c & Hc & Hf & Hd).
    assert (H : format_row py_str variant cols2 dtype na_rep = Raise KeyError).
    { apply format_row_raise. split; [done|]. exists c. by rewrite <- Hsame. }
    congruence.
  - apply format_row_raise in E1 as [-> _]. by apply format_row_raise in E2 as [-> _].
Qed.

(** X12. The row dictionaries depend only on which columns are requested, not
    on their order or on repeats: two column lists with the same members
    give the same result, rows or exception. *)
Theorem format_csv_rows_same_columns
    (variants : list (Variant V)) cols1 cols2 dtype na_rep :
  (forall c, c ∈ cols1 <-> c ∈ cols2) ->
  format_csv_rows py_str variants cols1 dtype na_rep
  = format_csv_rows py_str variants cols2 dtype na_rep.
Proof.
  intros Hsame. unfold format_csv_rows.
  induction variants as [|v vs IH]; [done|]. simpl.
  by rewrite (format_row_same_columns v cols1 cols2 dtype na_rep Hsame), IH.
Qed.

End ExporterMore.

Lemma exported_null_cell_is_sentinel_witness :
  ("NA" : string) = "NA".
Proof.
  refine (exported_null_cell_is_sentinel str_of_int
            [make_variant "urn:mavedb:00000001-a-1#1" 1 (sample_variant_data "c.1A>G")]
            ["hgvs_nt"; "hgvs_pro"] "score_data" "NA"
            [ {[ "hgvs_nt" := "c.1A>G"; "hgvs_pro" := "NA" ]} ]
            {[ "hgvs_nt" := "c.1A>G"; "hgvs_pro" := "NA" ]}
            "hgvs_pro" "NA" _ _ _ _).
  - by vm_compute.
  - by left.
  - by vm_compute.
  - reflexivity.
Defined.

Lemma format_csv_rows_same_columns_witness :
  format_csv_rows str_of_int
    [make_variant "urn:mavedb:00000001-a-1#1" 1 (sample_variant_data "c.1A>G")]
    ["score"; "hgvs_nt"; "score"] "score_data" "NA"
  = format_csv_rows str_of_int
    [make_variant "urn:mavedb:00000001-a-1#1" 1 (sample_variant_data "c.1A>G")]
    ["hgvs_nt"; "score"] "score_data" "NA".
Proof.
  apply format_csv_rows_same_columns. intros c.
  rewrite !elem_of_cons. tauto.
Defined.

(** ** More on updating a scoreset *)
Module UpdateMore.
Import Update.

Lemma apply_update_last item item_update f :
  apply_update item item_update !! f =
  match last_assigned f item_update with
  | Some v => Some v
  | None => item !! f
  end.
Proof.
  induction item_update as [|[g v] l IH] using rev_ind; [done|].
  rewrite UpdateFacts.apply_update_snoc. unfold last_assigned.
  rewrite fold_left_app. fold (last_assigned f l). unfold assign. simpl.
  destruct (truthy v) eqn:Ev; simpl; [|done].
  destruct (decide (g = f)) as [->|Hne].
  - by rewrite bool_decide_eq_true_2, lookup_insert_eq.
  - by rewrite bool_decide_eq_false_2, lookup_insert_ne.
Qed.

(** X13. Applying the same payload a second time changes nothing. *)
Theorem apply_update_idempotent item item_update :
  apply_update (apply_update item item_update) item_update
  = apply_update item item_update.
Proof.
  apply map_eq. intros f. rewrite !apply_update_last.
  by destruct (last_assigned f item_update).
Qed.

(** X14. What [update_scoreset] does to the table: the table keeps its
    length, a row that the query does not select stays where and as it
    was, and with no payload, or when no public row has the urn, the
    handler returns [None] and the table is untouched. *)
Theorem update_scoreset_table rejects commit_ok refresh_ok u item_update table :
  let out := update_scoreset rejects commit_ok refresh_ok u item_update table in
  length out.2 = length table /\
  (forall i row, table !! i = Some row -> is_public_with_urn u row = false ->
                 out.2 !! i = Some row) /\
  (item_update = None \/ List.filter (is_public_with_urn u) table = [] ->
   out = (Ok None, table)).
Proof.
  unfold update_scoreset. destruct item_update as [payload|]; simpl.
  - destruct (List.filter (is_public_with_urn u) table) as [|x [|y l]] eqn:E; simpl.
    + split; [done|]. split; [done|]. done.
    + destruct (update_loop rejects x payload) as [item'|e]; simpl.
      * destruct (commit_ok _); [destruct (refresh_ok _)|]; simpl.
        -- split; [by rewrite length_fmap|]. split.
           ++ intros i row Hi Hp. rewrite list_lookup_fmap, Hi. simpl. by rewrite Hp.
           ++ intros [H|H]; discriminate.
        -- split; [by rewrite length_fmap|]. split.
           ++ intros i row Hi Hp. rewrite list_lookup_fmap, Hi. simpl. by rewrite Hp.
           ++ intros [H|H]; discriminate.
        -- split; [done|]. split; [done|]. intros [H|H]; discriminate.
      * split; [done|]. split; [done|]. intros [H|H]; discriminate.
    + split; [done|]. split; [done|]. intros [H|H]; discriminate.
  - split; [done|]. split; [done|]. done.
Qed.

End UpdateMore.

(** ** More on the table loader *)
Section LoaderMore.
Context {F : Type}.
Variable parse_float : string -> option F.
Variable na_values : list string.

Lemma columns_add_if_missing (df : DataFrame F) c :
  columns (add_if_missing df c) =
  (columns df ++ if decide (c ∈ columns df) then [] else [c])%list.
Proof.
  unfold add_if_missing. destruct (decide (c ∈ columns df)).
  - by rewrite app_nil_r.
  - unfold columns, add_nan_column. simpl. by rewrite fmap_app.
Qed.

Lemma filter_iff_in (P1 P2 : string -> Prop)
    `{!forall x, Decision (P1 x), !forall x, Decision (P2 x)} (l : list string) :
  (forall x, x ∈ l -> P1 x <-> P2 x) -> filter P1 l = filter P2 l.
Proof.
  induction l as [|x l IH]; intros Hall; [done|].
  assert (Hx : P1 x <-> P2 x) by (apply Hall; by left).
  assert (Hl : filter P1 l = filter P2 l)
    by (apply IH; intros y Hy; apply Hall; by right).
  destruct (decide (P1 x)) as [H1|H1].
  - rewrite !filter_cons_True by tauto. by rewrite Hl.
  - rewrite !filter_cons_False by tauto. done.
Qed.

Lemma columns_add_missing (opts : list string) (df : DataFrame F) :
  NoDup opts ->
  columns (fold_left add_if_missing opts df) =
  (columns df ++ filter (fun c => c ∉ columns df) opts)%list.
Proof.
  intros Hnd. revert df. induction Hnd as [|c opts Hc Hnd IH]; intros df.
  - simpl. by rewrite app_nil_r.
  - cbn [fold_left]. rewrite IH, columns_add_if_missing.
    destruct (decide (c ∈ columns df)) as [Hin|Hin].
    + rewrite app_nil_r, filter_cons_False; [done | by intros ?].
    + rewrite filter_cons_True by done. rewrite <- app_assoc. simpl. do 2 f_equal.
      apply filter_iff_in. intros x Hx.
      rewrite elem_of_app, list_elem_of_singleton.
      split; [tauto|]. intros H [?| ->]; done.
Qed.

(** X15. The loaded frame keeps the columns of the file in the order of the
    header and puts the identifier columns that the file lacks after
    them, in the order [hgvs_nt], [hgvs_splice], [hgvs_pro]. *)
Theorem load_table_column_order (raw : RawTable) (df : DataFrame F) :
  load_table parse_float na_values raw = Ok df ->
  columns df =
  ((fields raw).*1 ++ filter (fun c => c ∉ (fields raw).*1) HGVSColumns.options)%list.
Proof.
  unfold load_table.
  destruct (read_csv parse_float na_values upload_dtype raw) as [df0|e] eqn:Er; [|done].
  simpl. intros [= <-].
  apply read_csv_shape in Er as [_ Hc].
  destruct (replace_shape df0) as [_ Hc'].
  unfold add_missing_hgvs. rewrite columns_add_missing, Hc', Hc; [done|].
  unfold HGVSColumns.options. repeat constructor; rewrite ?not_elem_of_cons;
    repeat split; try discriminate; apply not_elem_of_nil.
Qed.

Lemma read_csv_column (raw : RawTable) (df : DataFrame F) c cells :
  read_csv parse_float na_values upload_dtype raw = Ok df ->
  column df c = Some cells ->
  exists toks, convert parse_float na_values (upload_dtype c) toks = Ok cells.
Proof.
  intros H. apply read_csv_ok_inv in H as (cols & Er & ->).
  unfold column. simpl. apply rmap_ok in Er.
  induction Er as [|[k toks] [k' cs] l l' H _ IH]; simpl; [done|].
  simpl in H.
  destruct (convert parse_float na_values (upload_dtype k) toks) as [cs0|] eqn:Ec;
    simpl in H; [|done].
  injection H as <- <-.
  destruct (decide (k = c)) as [->|Hne]; [|exact IH].
  intros [= <-]. eauto.
Qed.

Lemma assoc_fmap_snd {A B} (g : A -> B) c (l : list (string * A)) :
  assoc c ((fun p : string * A => (p.1, g p.2)) <$> l) = g <$> assoc c l.
Proof.
  induction l as [|[k v] l IH]; [done|]. rewrite fmap_cons. simpl.
  by destruct (decide (k = c)).
Qed.

Lemma rmap_as_float_cells (toks : list string) cells :
  rmap (as_float parse_float na_values) toks = Ok cells ->
  Forall (fun x : cell F => x = NaN \/ exists n, x = Num n) cells.
Proof.
  intros H. apply rmap_ok in H.
  induction H as [|t x toks cells Hx _ IH]; constructor; [|done].
  unfold as_float in Hx. destruct (is_na na_values t).
  - injection Hx as <-. by left.
  - destruct (parse_float t) as [n|]; [|discriminate].
    injection Hx as <-. right. by exists n.
Qed.

(** X16. After a successful load the declared types hold: the identifier
    columns hold only text or NaN, never a number, and the column named
    [scores], when the file has one, holds only numbers or NaN, never
    text. *)
Theorem load_table_declared_types (raw : RawTable) (df : DataFrame F) :
  load_table parse_float na_values raw = Ok df ->
  (forall c cells, c ∈ HGVSColumns.options -> column df c = Some cells ->
     Forall (fun x : cell F => x = NaN \/ exists s, x = Str s) cells) /\
  (forall cells, column df "scores" = Some cells ->
     Forall (fun x : cell F => x = NaN \/ exists n, x = Num n) cells).
Proof.
  unfold load_table.
  destruct (read_csv parse_float na_values upload_dtype raw) as [df0|e] eqn:Er; [|done].
  simpl. intros [= <-].
  destruct (add_missing_hgvs_spec (replace df0)) as (_ & _ & K & N & O).
  assert (Hrep : forall c, column (replace df0) c
                           = (fmap (M := list) (@replace_cell F)) <$> column df0 c).
  { intros c. unfold column, replace. simpl. apply assoc_fmap_snd. }
  split.
  - intros c cells Hc Hcol.
    destruct (decide (c ∈ columns (replace df0))) as [Hin|Hin].
    + destruct (K c Hin) as [_ E]. rewrite E, Hrep in Hcol.
      destruct (column df0 c) as [cs|] eqn:E0; [|done]. injection Hcol as <-.
      destruct (read_csv_column raw df0 c cs Er E0) as (toks & Hconv).
      unfold upload_dtype in Hconv. rewrite decide_True in Hconv by done.
      simpl in Hconv. injection Hconv as <-.
      apply Forall_fmap, Forall_fmap, Forall_forall. intros t _. simpl.
      unfold as_object. destruct (is_na na_values t); simpl; [by left|].
      destruct (search true null_values_re t); [by left | right; eauto].
    + rewrite (N c Hc Hin) in Hcol. injection Hcol as <-.
      apply Forall_forall. intros x Hx. apply elem_of_replicate in Hx as [-> _].
      by left.
  - intros cells Hcol.
    assert (Hin : "scores" ∈ columns (replace df0)).
    { destruct (decide ("scores" ∈ columns (add_missing_hgvs (replace df0)))) as [H|H].
      - apply O in H as [H|H]; [done|]. exfalso.
        unfold HGVSColumns.options in H. rewrite !elem_of_cons in H.
        destruct H as [?|[?|[?|H]]]; try discriminate. by apply elem_of_nil in H.
      - apply assoc_None in H. unfold column in Hcol. congruence. }
    destruct (K _ Hin) as [_ E]. rewrite E, Hrep in Hcol.
    destruct (column df0 "scores") as [cs|] eqn:E0; [|done]. injection Hcol as <-.
    destruct (read_csv_column raw df0 "scores" cs Er E0) as (toks & Hconv).
    simpl in Hconv. apply rmap_as_float_cells in Hconv.
    apply Forall_fmap. eapply Forall_impl; [exact Hconv|].
    intros x [->|[n ->]]; simpl; [by left | right; eauto].
Qed.

End LoaderMore.

Lemma load_table_column_order_witness :
  exists df,
    load_table parse_decimal sample_na_values scores_with_scores_column = Ok df /\
    columns df = ["hgvs_pro"; "scores"; "hgvs_nt"; "hgvs_splice"].
Proof.
  eexists. split; [vm_compute; reflexivity|].
  exact (load_table_column_order parse_decimal sample_na_values
           scores_with_scores_column _ ltac:(vm_compute; reflexivity)).
Defined.

Lemma load_table_declared_types_witness :
  exists df,
    load_table parse_decimal sample_na_values scores_with_scores_column = Ok df /\
    forall cells, column df "scores" = Some cells ->
      Forall (fun x : cell Z => x = NaN \/ exists n, x = Num n) cells.
Proof.
  eexists. split; [vm_compute; reflexivity|].
  exact (proj2 (load_table_declared_types parse_decimal sample_na_values
                  scores_with_scores_column _ ltac:(vm_compute; reflexivity))).
Defined.

(** ** Keywords of an experiment *)
Module ExperimentFacts.
Import ExperimentModel.

Lemma find_or_create_keyword_ok db keyword_text k :
  _find_or_create_keyword db keyword_text = Ok k ->
  text k = Some keyword_text /\
  (k ∈ db \/
   (keyword_id k = None /\ forall r, r ∈ db -> text r <> Some keyword_text)).
Proof.
  unfold _find_or_create_keyword.
  destruct (List.filter _ db) as [|x [|y l]] eqn:E; simpl; [| |done].
  - intros [= <-]. split; [done|]. right. split; [done|].
    intros r Hr Ht.
    assert (Hin : In r (List.filter (fun k => bool_decide (text k = Some keyword_text)) db)).
    { apply filter_In. split; [by apply list_elem_of_In | by apply bool_decide_eq_true]. }
    by rewrite E in Hin.
  - intros [= <-].
    assert (Hin : In x (List.filter (fun k => bool_decide (text k = Some keyword_text)) db))
      by (rewrite E; by left).
    apply filter_In in Hin as [Hin Ht]. apply bool_decide_eq_true in Ht.
    split; [done|]. left. by apply list_elem_of_In.
Qed.

Lemma find_or_create_keyword_raise db keyword_text e :
  _find_or_create_keyword db keyword_text = Raise e <->
  e = MultipleResultsFound /\
  (2 <= length (List.filter (fun k => bool_decide (text k = Some keyword_text)) db))%nat.
Proof.
  unfold _find_or_create_keyword.
  destruct (List.filter _ db) as [|x [|y l]]; simpl.
  - split; [done | intros [_ ?]; lia].
  - split; [done | intros [_ ?]; lia].
  - split; [intros [= <-]; split; [done | lia] | by intros [-> _]].
Qed.

(** X17. Setting the keywords and reading them back. When [set_keywords]
    returns, the property [keywords] gives back the list that was set
    (the empty list for [None]), in order and with repeats; every keyword
    object is a row of the table with that text or else a new object,
    made only when no row has the text; nothing but the keyword objects
    of the experiment changes. It raises, with [MultipleResultsFound],
    exactly when some text to set is the text of two or more rows: when
    it returns, no text to set has two rows, and when it raises, one
    has. *)
Theorem set_keywords_round_trip (db : list Keyword) (kws : option (list string))
    (self : Experiment) :
  match set_keywords db kws self with
  | Ok self' =>
      keywords self' = default [] kws /\
      Forall (fun k => k ∈ db \/
                       (keyword_id k = None /\ forall r, r ∈ db -> text r <> text k))
             (keyword_objs self') /\
      self' = set_keyword_objs (keyword_objs self') self /\
      (forall ks t,
         kws = Some ks -> t ∈ ks ->
         (length (List.filter (fun k => bool_decide (text k = Some t)) db) < 2)%nat)
  | Raise e =>
      e = MultipleResultsFound /\
      exists ks t,
        kws = Some ks /\ t ∈ ks /\
        (2 <= length (List.filter (fun k => bool_decide (text k = Some t)) db))%nat
  end.
Proof.
  unfold set_keywords. destruct kws as [ks|]; [|by repeat split].
  destruct (rmap (_find_or_create_keyword db) ks) as [objs|e] eqn:E; simpl.
  - apply rmap_ok in E. split; [|split; [|split; [done|]]].
    + unfold keywords. simpl.
      induction E as [|t k ks objs Hk _ IH]; [done|].
      apply find_or_create_keyword_ok in Hk as [Ht _].
      change (omap text (k :: objs))
        with (match text k with
              | Some y => y :: omap text objs
              | None => omap text objs
              end).
      by rewrite Ht, IH.
    + induction E as [|t k ks objs Hk _ IH]; constructor; [|done].
      apply find_or_create_keyword_ok in Hk as [Ht [Hin|[Hid Hno]]]; [by left|].
      right. split; [done|]. by rewrite Ht.
    + intros ks0 t [= <-] Hin.
      destruct (Nat.lt_ge_cases
                  (length (List.filter (fun k => bool_decide (text k = Some t)) db)) 2)
        as [Hlt|Hge]; [exact Hlt|].
      exfalso.
      assert (Hr : _find_or_create_keyword db t = Raise MultipleResultsFound)
        by (by apply find_or_create_keyword_raise).
      clear Hge. induction E as [|t0 k ks objs Hk _ IH]; [by apply elem_of_nil in Hin|].
      apply elem_of_cons in Hin as [->|Hin]; [congruence | by apply IH].
  - apply rmap_raise_inv in E as (t & Hin & Ht).
    apply find_or_create_keyword_raise in Ht as [-> Hlen].
    split; [done|]. by exists ks, t.
Qed.

End ExperimentFacts.

(** ** Statistics *)
Module StatisticsFacts.
Import Statistics.

Lemma organism_loop_raise n rows e :
  fold_left (organism_step n) rows (Raise e) = Raise e.
Proof. induction rows; simpl; auto. Qed.

(** The loop on rows none of which is named with the capital S. *)
Lemma organism_loop_plain n rows acc :
  (forall row, row ∈ rows -> row.1 <> Some "Homo Sapiens") ->
  exists counts,
    fold_left (organism_step n) rows (Ok acc) = Ok counts /\
    forall k, counts !! k =
      if decide (k ∈ rows.*1)
      then Some (default 0%Z (acc !! k) + total_for k rows)%Z
      else acc !! k.
Proof.
  revert acc. induction rows as [|[o c] rows IH]; intros acc Hrows.
  - exists acc. split; [done|]. intros k. rewrite decide_False; [done|].
    apply not_elem_of_nil.
  - cbn [fold_left]. unfold organism_step at 2. cbn [rbind fst snd].
    rewrite decide_False by (apply (Hrows (o, c)); by left).
    set (acc' := match acc !! o with
                 | Some n0 => <[o := (n0 + c)%Z]> acc
                 | None => <[o := c]> acc
                 end).
    destruct (IH acc') as (counts & Hfold & Hlook).
    { intros row Hrow. apply Hrows. by right. }
    exists counts. split; [exact Hfold|].
    assert (Hacc' : forall k, acc' !! k =
              if decide (o = k) then Some (default 0%Z (acc !! k) + c)%Z else acc !! k).
    { intros k. subst acc'. destruct (decide (o = k)) as [->|Hne].
      - destruct (acc !! k) as [n0|]; by rewrite lookup_insert_eq.
      - destruct (acc !! o); by rewrite lookup_insert_ne. }
    intros k. rewrite Hlook, Hacc'. rewrite fmap_cons. cbn [fst total_for foldr].
    fold (total_for k rows). cbn [fst snd].
    destruct (decide (k ∈ rows.*1)) as [Hk|Hk];
      destruct (decide (o = k)) as [->|Hne].
    + rewrite decide_True by (by left). simpl. f_equal. lia.
    + rewrite decide_True by (by right). done.
    + rewrite decide_True by (by left).
      assert (total_for k rows = 0%Z) as ->.
      { clear -Hk. induction rows as [|[o' c'] rows IH]; [done|].
        rewrite fmap_cons in Hk. apply not_elem_of_cons in Hk as [Hne Hk].
        simpl. rewrite decide_False by done. by apply IH. }
      f_equal. lia.
    + rewrite decide_False; [done|].
      rewrite not_elem_of_cons. split; [by intros -> | done].
Qed.

(** X18. The organism statistic when no sequence row is named "Homo Sapiens"
    with a capital S. It does not raise; every organism that has rows is
    reported with the sum of their counts; the targets given by accession
    are reported, under "Homo sapiens", only when no row has that name
    and their number is not zero, and otherwise are not counted at all. *)
Theorem organism_counts_plain (rows : list (option string * Z)) (accession_count : Z) :
  (forall row, row ∈ rows -> row.1 <> Some "Homo Sapiens") ->
  exists counts,
    organism_counts rows accession_count = Ok counts /\
    forall k, counts !! k =
      if decide (k ∈ rows.*1) then Some (total_for k rows)
      else if decide (k = Some "Homo sapiens" /\ accession_count <> 0%Z)
           then Some accession_count
           else None.
Proof.
  intros Hrows. unfold organism_counts.
  destruct (organism_loop_plain accession_count rows ∅ Hrows) as (counts & -> & Hlook).
  simpl.
  assert (Hl : forall k, counts !! k =
            if decide (k ∈ rows.*1) then Some (total_for k rows) else None).
  { intros k. rewrite Hlook, lookup_empty. by destruct (decide (k ∈ rows.*1)). }
  destruct (counts !! Some "Homo sapiens") as [m|] eqn:Eh.
  - exists counts. split; [done|]. intros k. rewrite Hl.
    destruct (decide (k ∈ rows.*1)) as [Hk|Hk]; [done|].
    destruct (decide (k = Some "Homo sapiens" /\ accession_count <> 0%Z))
      as [[-> _]|_]; [|done].
    rewrite Hl, decide_False in Eh by done. discriminate.
  - destruct (accession_count =? 0)%Z eqn:Ez; simpl.
    + apply Z.eqb_eq in Ez. exists counts. split; [done|]. intros k. rewrite Hl.
      destruct (decide (k ∈ rows.*1)); [done|].
      rewrite decide_False; [done | by intros [_ ?]].
    + apply Z.eqb_neq in Ez. eexists. split; [done|]. intros k.
      destruct (decide (k = Some "Homo sapiens")) as [->|Hne].
      * rewrite lookup_insert_eq. rewrite Hl in Eh.
        destruct (decide (Some "Homo sapiens" ∈ rows.*1)); [discriminate|].
        by rewrite decide_True.
      * rewrite lookup_insert_ne by done. rewrite Hl.
        destruct (decide (k ∈ rows.*1)); [done|].
        rewrite decide_False; [done | by intros [? _]].
Qed.

(** X19. A sequence row named "Homo Sapiens" with a capital S, before which
    no row is named "Homo sapiens" or "Homo Sapiens", makes the organism
    statistic raise [KeyError]. *)
Theorem organism_counts_capital_raises
    (pre post : list (option string * Z)) (count accession_count : Z) :
  (forall row, row ∈ pre ->
     row.1 <> Some "Homo Sapiens" /\ row.1 <> Some "Homo sapiens") ->
  organism_counts (pre ++ (Some "Homo Sapiens", count) :: post) accession_count
  = Raise KeyError.
Proof.
  intros Hpre. unfold organism_counts. rewrite fold_left_app.
  destruct (organism_loop_plain accession_count pre ∅) as (counts & -> & Hlook).
  { intros row Hrow. by apply Hpre. }
  cbn [fold_left]. unfold organism_step at 2. cbn [rbind fst snd].
  rewrite decide_True by done.
  assert (Hnone : counts !! Some "Homo sapiens" = None).
  { rewrite Hlook, lookup_empty. rewrite decide_False; [done|].
    intros Hin. apply list_elem_of_fmap in Hin as (row & Hrow1 & Hrow).
    by destruct (Hpre row Hrow) as [_ ?]. }
  assert (Hins : forall m : gmap (option string) Z,
            m !! Some "Homo sapiens" = None ->
            forall v, <[Some "Homo Sapiens" := v]> m !! Some "Homo sapiens" = None).
  { intros m Hm v. by rewrite lookup_insert_ne. }
  destruct (counts !! Some "Homo Sapiens");
    rewrite (Hins _ Hnone); by rewrite organism_loop_raise.
Qed.

End StatisticsFacts.

Lemma organism_counts_plain_witness :
  exists counts,
    Statistics.organism_counts
      [(Some "Homo sapiens", 5%Z); (Some "Mus musculus", 2%Z)] 3%Z = Ok counts /\
    counts !! Some "Homo sapiens" = Some 5%Z.
Proof.
  destruct (StatisticsFacts.organism_counts_plain
              [(Some "Homo sapiens", 5%Z); (Some "Mus musculus", 2%Z)] 3%Z)
    as (counts & Hc & Hl).
  - intros row Hrow. rewrite !elem_of_cons in Hrow.
    destruct Hrow as [->|[->|Hrow]]; [discriminate | discriminate |].
    by apply elem_of_nil in Hrow.
  - exists counts. split; [exact Hc|]. rewrite Hl.
    rewrite decide_True by (by left). reflexivity.
Defined.

Lemma organism_counts_capital_raises_witness :
  Statistics.organism_counts [(Some "Homo Sapiens", 4%Z)] 3%Z = Raise KeyError.
Proof.
  apply (StatisticsFacts.organism_counts_capital_raises [] [] 4 3).
  intros row Hrow. by apply elem_of_nil in Hrow.
Defined.

Module PublicationFacts.
Import Statistics.

Lemma publication_lookup_snoc rows r i d :
  publication_identifier_counts (rows ++ [r]) !! d ≫= (fun m => m !! i) =
  if decide (r.1 = (i, d)) then Some r.2
  else publication_identifier_counts rows !! d ≫= (fun m => m !! i).
Proof.
  unfold publication_identifier_counts. rewrite fold_left_app. simpl.
  set (acc := fold_left publication_step rows ∅).
  destruct r as [[i0 d0] c0]. unfold publication_step. simpl.
  destruct (decide (d0 = d)) as [->|Hd].
  - destruct (acc !! d) as [inner|] eqn:Ea; rewrite lookup_insert_eq; simpl.
    + destruct (decide (i0 = i)) as [->|Hi].
      * by rewrite lookup_insert_eq, decide_True.
      * rewrite lookup_insert_ne by done. rewrite decide_False; [done | congruence].
    + destruct (decide (i0 = i)) as [->|Hi].
      * by rewrite lookup_singleton_eq, decide_True.
      * rewrite lookup_singleton_ne by done. rewrite decide_False; [done | congruence].
  - rewrite decide_False by congruence.
    destruct (acc !! d0); by rewrite lookup_insert_ne.
Qed.

(** X20. The publication statistic files every row under its database name
    and then its identifier: when no two rows share identifier and
    database name (the query groups by both), the count found under a
    database name and an identifier is the count of the row with that
    pair, and nothing is found for a pair that has no row. *)
Theorem publication_identifier_counts_lookup
    (rows : list (string * string * Z)) (i d : string) (c : Z) :
  NoDup rows.*1 ->
  publication_identifier_counts rows !! d ≫= (fun m => m !! i) = Some c <->
  (i, d, c) ∈ rows.
Proof.
  induction rows as [|r rows IH] using rev_ind; intros Hnd.
  - unfold publication_identifier_counts. simpl. rewrite lookup_empty. simpl.
    split; [done | intros H; by apply elem_of_nil in H].
  - rewrite fmap_app in Hnd. apply NoDup_app in Hnd as (Hnd & Hdisj & _).
    rewrite publication_lookup_snoc, elem_of_app, list_elem_of_singleton.
    destruct (decide (r.1 = (i, d))) as [Hr|Hr].
    + split.
      * intros [= <-]. right. destruct r as [[? ?] ?]. simpl in *. congruence.
      * intros [Hin|E]; [|by rewrite <- E]. exfalso. apply (Hdisj (i, d)).
        -- apply list_elem_of_fmap. by exists (i, d, c).
        -- rewrite <- Hr. simpl. by left.
    + rewrite (IH Hnd). split; [by left|].
      intros [Hin|E]; [done|]. subst r. by destruct Hr.
Qed.

End PublicationFacts.

Lemma publication_identifier_counts_lookup_witness :
  Statistics.publication_identifier_counts
    [("12345", "PubMed", 2%Z); ("12345", "bioRxiv", 1%Z)] !! "bioRxiv"
    ≫= (fun m => m !! "12345") = Some 1%Z.
Proof.
  apply PublicationFacts.publication_identifier_counts_lookup.
  - simpl. apply NoDup_cons. split.
    + rewrite list_elem_of_singleton. discriminate.
    + apply NoDup_singleton.
  - right. by left.
Defined.

(** ** The numbering invariant *)
Section NumberingInvariant.
Context {F V : Type}.
Variable parse_float : string -> option F.
Variable na_values : list string.
Variable create_variants_data :
  DataFrame F -> option (DataFrame F) -> result (list (VariantData V)).
Variable insert_ok : Store V -> list (Variant V) -> bool.
Variable commit_ok : Store V -> bool.
Variable refresh_ok : Store V -> bool.

Lemma elem_of_write_back (item' r : Scoreset) (table : list Scoreset) :
  r ∈ write_back item' table ->
  (r = item' /\ exists r0, r0 ∈ table /\ id r0 = id item') \/
  (r ∈ table /\ id r <> id item').
Proof.
  unfold write_back. intros H. apply list_elem_of_fmap in H as (r0 & -> & Hr0).
  destruct (decide (id r0 = id item')); [left | right]; eauto.
Qed.

Lemma lookup_range_inv n (x : Z) : x ∈ range n -> (0 <= x < n)%Z.
Proof.
  unfold range. intros H. apply list_elem_of_fmap in H as (k & -> & Hk).
  apply elem_of_seq in Hk. lia.
Qed.

(** X21. A successful upload keeps the numbering invariant: afterwards the
    scoresets are still told apart by id and urn, every variant, old or
    new, is numbered within the counter of its scoreset, and no two
    variants have the same urn. *)
Theorem upload_keeps_numbering_invariant
    u counts_file scores_file user (p : Store V) item' s' :
  numbering_invariant p ->
  upload_scoreset_variant_data parse_float na_values create_variants_data
    insert_ok commit_ok refresh_ok u counts_file scores_file user (fresh p)
    = (Ok (Some item'), s') ->
  numbering_invariant (persisted s').
Proof.
  intros [Hids Hurns Hnn Hnum Hnd] Hup.
  apply (upload_ok_inv parse_float na_values create_variants_data insert_ok commit_ok refresh_ok)
    in Hup as (item & scores_df & counts_df & count_cols & vd
               & Hq & _ & _ & _ & Hitem & Hp & Ht & Hvs).
  simpl in Hq, Ht, Hvs.
  assert (Hin : In item (List.filter (public_with_urn u) (scoresets p)))
    by (rewrite Hq; by left).
  apply filter_In in Hin as [Hin _]. apply list_elem_of_In in Hin.
  assert (Hid : id item' = id item) by (by subst item').
  assert (Hurn : urn item' = urn item) by (by subst item').
  assert (Hcnt : num_variants item' = (num_variants item + Z.of_nat (length vd))%Z)
    by (by subst item').
  set (new := (fun q : string * VariantData V => make_variant q.1 (id item) q.2)
                <$> zip ((fun i => format_urn (urn item) (num_variants item + (i + 1)))
                           <$> range (Z.of_nat (length vd))) vd) in *.
  assert (Hnew_urns : v_urn <$> new =
            (fun i => format_urn (urn item) (num_variants item + (i + 1)))
              <$> range (Z.of_nat (length vd))).
  { apply fmap_urn_zip. by rewrite length_fmap, UrnFacts.length_range, Nat2Z.id. }
  assert (Hnew_sid : Forall (fun v => scoreset_id v = id item) new).
  { apply Forall_fmap, Forall_forall. by intros [? ?] _. }
  assert (Hold : forall r, r ∈ scoresets p -> id r = id item -> r = item)
    by (intros r Hr Hri; by apply Hids).
  assert (Hitem'_in : item' ∈ write_back item' (scoresets p)).
  { unfold write_back. apply list_elem_of_fmap. exists item.
    split; [by rewrite decide_True | done]. }
  assert (Hkeep : forall r, r ∈ scoresets p -> r <> item ->
                            r ∈ write_back item' (scoresets p)).
  { intros r Hr Hne. unfold write_back. apply list_elem_of_fmap. exists r.
    split; [|done]. rewrite decide_False; [done|].
    intros E. apply Hne, Hold; congruence. }
  rewrite Hp. constructor; rewrite ?Ht, ?Hvs.
  - intros s1 s2 H1 H2 E.
    apply elem_of_write_back in H1 as [[-> _]|[H1 N1]];
      apply elem_of_write_back in H2 as [[-> _]|[H2 N2]]; try done; try congruence.
    by apply Hids.
  - intros s1 s2 H1 H2 E.
    apply elem_of_write_back in H1 as [[-> _]|[H1 N1]];
      apply elem_of_write_back in H2 as [[-> _]|[H2 N2]]; try done.
    + exfalso. apply N2. rewrite Hid. f_equal. apply Hurns; congruence.
    + exfalso. apply N1. rewrite Hid. f_equal. apply Hurns; congruence.
    + by apply Hurns.
  - intros s0 H0. apply elem_of_write_back in H0 as [[-> _]|[H0 _]]; [|by apply Hnn].
    rewrite Hcnt. specialize (Hnn item Hin). lia.
  - intros v Hv. apply elem_of_app in Hv as [Hv|Hv].
    + destruct (Hnum v Hv) as (s0 & k & Hs0 & Hsid & Hvu & Hk).
      destruct (decide (id s0 = id item)) as [He|Hne].
      * assert (s0 = item) as -> by (by apply Hids).
        exists item', k. split; [done|]. split; [congruence|].
        split; [congruence|]. rewrite Hcnt. lia.
      * exists s0, k. split; [|done]. apply Hkeep; [done | congruence].
    + exists item'. apply list_elem_of_lookup in Hv as [j Hj].
      assert (Hu : (v_urn <$> new) !! j = Some (v_urn v))
        by (by rewrite list_lookup_fmap, Hj).
      rewrite Hnew_urns, list_lookup_fmap in Hu.
      destruct (range (Z.of_nat (length vd)) !! j) as [x|] eqn:Ex; [|done].
      injection Hu as Hu.
      assert (Hx : (0 <= x < Z.of_nat (length vd))%Z)
        by (apply lookup_range_inv; by eapply list_elem_of_lookup_2).
      exists (num_variants item + (x + 1))%Z. split; [done|]. split.
      * rewrite Hid. eapply (proj1 (Forall_forall _ _) Hnew_sid).
        by eapply list_elem_of_lookup_2.
      * split; [congruence|]. rewrite Hcnt. specialize (Hnn item Hin). lia.
  - rewrite fmap_app. apply NoDup_app. split; [done|]. split.
    + intros x Hx Hx'. rewrite Hnew_urns in Hx'.
      apply list_elem_of_fmap in Hx' as (i & -> & Hi). apply lookup_range_inv in Hi.
      apply list_elem_of_fmap in Hx as (v & Hvu & Hv).
      destruct (Hnum v Hv) as (s0 & k & Hs0 & _ & Hvk & Hk).
      rewrite Hvk in Hvu.
      apply UrnPairFacts.format_urn_determines_parent_and_number_aux in Hvu as [Eu Ek].
      assert (s0 = item) as -> by (apply Hurns; congruence). lia.
    + rewrite Hnew_urns. apply urns_NoDup.
Qed.

End NumberingInvariant.

Lemma sample_store_numbered : numbering_invariant sample_store.
Proof.
  constructor; simpl.
  - intros s1 s2 H1 H2 _. apply list_elem_of_singleton in H1, H2. congruence.
  - intros s1 s2 H1 H2 _. apply list_elem_of_singleton in H1, H2. congruence.
  - intros s H. apply list_elem_of_singleton in H. subst s. simpl. lia.
  - intros v Hv. exists sample_scoreset. rewrite !elem_of_cons in Hv.
    destruct Hv as [->|[->|Hv]]; [exists 1%Z | exists 2%Z | by apply elem_of_nil in Hv];
      (split; [by left|]; split; [reflexivity|]; split; [reflexivity | simpl; lia]).
  - apply NoDup_cons. split; [|apply NoDup_singleton].
    rewrite list_elem_of_singleton. discriminate.
Qed.

Lemma upload_keeps_numbering_invariant_witness :
  numbering_invariant
    (persisted
       (upload_scoreset_variant_data parse_decimal sample_na_values sample_merge
          (fun _ _ => true) (fun _ => true) (fun _ => true)
          "urn:mavedb:00000001-a-1" None sample_scores_file 5%Z
          (fresh sample_store)).2).
Proof.
  eapply (upload_keeps_numbering_invariant parse_decimal sample_na_values sample_merge
            (fun _ _ => true) (fun _ => true) (fun _ => true)
            "urn:mavedb:00000001-a-1" None sample_scores_file 5%Z sample_store).
  - exact sample_store_numbered.
  - vm_compute. reflexivity.
Defined.

Lemma upload_duplicate_urn_raises_witness :
  upload_scoreset_variant_data parse_decimal sample_na_values sample_merge
    (fun _ _ => true) (fun _ => true) (fun _ => true)
    "urn:mavedb:00000001-a-1" None sample_scores_file 5%Z
    (fresh store_with_duplicate_urn)
  = (Raise MultipleResultsFound, fresh store_with_duplicate_urn).
Proof.
  refine (proj1 (upload_duplicate_urn_raises parse_decimal sample_na_values
                   sample_merge (fun _ _ => true) (fun _ => true) (fun _ => true)
                   "urn:mavedb:00000001-a-1" None sample_scores_file 5%Z
                   (fresh store_with_duplicate_urn) _)).
  simpl. lia.
Defined.
